(** * TalentScout hiring assistant: the question sequencer, the field
      validators and the per-input processing step of [main.py]

    The development embeds the program the way it is written:
    - Python text ([str]) as [string], one [ascii] per code point;
    - Python [float] as an IEEE 754 binary64 value ([spec_float]);
    - exceptions as an explicit [result] type with [try]/[except] written
      out as pattern matching on the raised exception;
    - [st.session_state] as a record threaded through the script;
    - the collaborators that are not part of the repository (the e-mail
      syntax checker behind [EmailStr], the Gemini service and the API key
      read from the process environment) as fields of an [environment]. *)

From Stdlib Require Import String Ascii List ZArith NArith Bool Lia.
From Stdlib Require Import SpecFloat.
Import ListNotations.
Local Open Scope string_scope.
Local Open Scope bool_scope.

(* ================================================================== *)
(** * Python text *)
(* ================================================================== *)

(** Code points are those of [ascii], U+0000 to U+00FF.  On that range the
    classification below is the one of Python's [str] methods, which follow
    the Unicode character database. *)
Module PyStr.

Definition code (c : ascii) : N := N_of_ascii c.

Definition between (lo hi : N) (c : ascii) : bool :=
  (lo <=? code c)%N && (code c <=? hi)%N.

(** [str.isspace] on one character: TAB..CR, FS..US, SPACE, NEL, NBSP. *)
Definition isspace (c : ascii) : bool :=
  between 9 13 c || between 28 32 c
  || (code c =? 133)%N || (code c =? 160)%N.

(** [str.isalpha] on one character: the letters (general category L). *)
Definition isalpha (c : ascii) : bool :=
  between 65 90 c || between 97 122 c
  || (code c =? 170)%N || (code c =? 181)%N || (code c =? 186)%N
  || between 192 214 c || between 216 246 c || between 248 255 c.

(** The ten characters 0..9. *)
Definition is_decimal_digit (c : ascii) : bool := between 48 57 c.

(** [str.isdigit] on one character: Numeric_Type Decimal or Digit, which
    adds the superscripts two, three and one (U+00B2, U+00B3, U+00B9). *)
Definition isdigit_char (c : ascii) : bool :=
  is_decimal_digit c
  || (code c =? 178)%N || (code c =? 179)%N || (code c =? 185)%N.

(** The characters of a text, in order. *)
Definition chars (s : string) : list ascii := list_ascii_of_string s.

(** [len(s)]. *)
Definition len (s : string) : nat := String.length s.

(** Truth value of a text: the empty text is false. *)
Definition truthy (s : string) : bool :=
  match s with EmptyString => false | String _ _ => true end.

(** [all(p(x) for x in s)]. *)
Definition all (p : ascii -> bool) (s : string) : bool := forallb p (chars s).

(** [s.isdigit()]: at least one character, and all of them digits. *)
Definition isdigit (s : string) : bool := truthy s && all isdigit_char s.

(** [str.lower] on one character. *)
Definition lower_char (c : ascii) : ascii :=
  if between 65 90 c || between 192 214 c || between 216 222 c
  then ascii_of_N (code c + 32) else c.

Fixpoint lower (s : string) : string :=
  match s with
  | EmptyString => EmptyString
  | String c s' => String (lower_char c) (lower s')
  end.

(** [s.lstrip()], [s.rstrip()] and [s.strip()]: white space removed at the
    ends. *)
Fixpoint lstrip (s : string) : string :=
  match s with
  | EmptyString => EmptyString
  | String c s' => if isspace c then lstrip s' else s
  end.

Fixpoint rstrip (s : string) : string :=
  match s with
  | EmptyString => EmptyString
  | String c s' =>
      match rstrip s' with
      | EmptyString => if isspace c then EmptyString else String c EmptyString
      | r => String c r
      end
  end.

Definition strip (s : string) : string := rstrip (lstrip s).

(** [x in l] for a list of texts. *)
Definition mem (x : string) (l : list string) : bool :=
  existsb (String.eqb x) l.

(** The first and the last character of a text. *)
Definition first_char (s : string) : option ascii :=
  match s with EmptyString => None | String c _ => Some c end.

Fixpoint last_char (s : string) : option ascii :=
  match s with
  | EmptyString => None
  | String c EmptyString => Some c
  | String _ s' => last_char s'
  end.

(** ** [repr] of a text *)

Definition hex_digit (n : N) : ascii :=
  if (n <? 10)%N then ascii_of_N (48 + n) else ascii_of_N (87 + n).

Definition backslash : ascii := ascii_of_N 92.
Definition single_quote : ascii := ascii_of_N 39.
Definition double_quote : ascii := ascii_of_N 34.

(** A character [repr] prints as it is: the printable ones. *)
Definition isprintable (c : ascii) : bool :=
  between 32 126 c || (between 161 255 c && negb (code c =? 173)%N).

Definition repr_char (quote : ascii) (c : ascii) : string :=
  if Ascii.eqb c quote || Ascii.eqb c backslash
  then String backslash (String c EmptyString)
  else if (code c =? 9)%N then String backslash "t"
  else if (code c =? 10)%N then String backslash "n"
  else if (code c =? 13)%N then String backslash "r"
  else if isprintable c then String c EmptyString
  else String backslash
         (String "x"%char
            (String (hex_digit (code c / 16))
               (String (hex_digit (code c mod 16)) EmptyString))).

Fixpoint repr_body (quote : ascii) (s : string) : string :=
  match s with
  | EmptyString => EmptyString
  | String c s' => repr_char quote c ++ repr_body quote s'
  end.

Definition contains_char (q : ascii) (s : string) : bool :=
  existsb (Ascii.eqb q) (chars s).

(** [repr(s)]: single quotes, unless the text holds a single quote and no
    double quote. *)
Definition repr (s : string) : string :=
  let quote :=
    if contains_char single_quote s && negb (contains_char double_quote s)
    then double_quote else single_quote in
  String quote (repr_body quote s ++ String quote EmptyString).

End PyStr.

(* ================================================================== *)
(** * Python floats *)
(* ================================================================== *)

(** A Python [float] is a binary64 number.  [of_string] is the conversion
    [float(s)] of a text: the text is cleaned the way CPython does it
    (white space beyond ASCII becomes a blank, underscores are allowed
    between digits only, blanks are dropped at both ends), and what is left
    must be a signed decimal literal or one of inf, infinity and nan.
    The decimal value is rounded to the nearest binary64 number, ties to
    even. *)
Module PyFloat.

Definition float : Type := spec_float.

Definition prec : Z := 53.
Definition emax : Z := 1024.

Definition zero : float := S754_zero false.
Definition nan : float := S754_nan.
Definition infinity (negative : bool) : float := S754_infinity negative.

(** [x < y] and [x <= y]; both are false when an operand is NaN. *)
Definition ltb (x y : float) : bool := SFltb x y.
Definition leb (x y : float) : bool := SFleb x y.

(** The binary64 number nearest to [m * 10 ^ e], with the sign given. *)
Definition of_decimal (negative : bool) (m : N) (e : Z) : float :=
  match m with
  | N0 => S754_zero negative
  | Npos p =>
      match e with
      | Zneg k =>
          let '(q, e', l) :=
            SFdiv_core_binary prec emax (Zpos p) 0 (Z.pow_pos 10 k) 0 in
          binary_round_aux prec emax negative q e' l
      | _ => binary_round prec emax negative (Pos.mul p (Z.to_pos (10 ^ e))) 0
      end
  end.

(** ** Cleaning the text *)

(** Characters from U+007F on: white space becomes a blank, anything else
    a question mark (no such character is a decimal digit on this range). *)
Definition to_ascii (c : ascii) : ascii :=
  if (PyStr.code c <? 127)%N then c
  else if PyStr.isspace c then " "%char else "?"%char.

Definition underscore : ascii := "_"%char.

(** Underscores are dropped; one is allowed only between two digits. *)
Fixpoint drop_underscores (prev : ascii) (s : list ascii) : option (list ascii) :=
  match s with
  | [] => if Ascii.eqb prev underscore then None else Some []
  | c :: s' =>
      if Ascii.eqb c underscore then
        if PyStr.is_decimal_digit prev then drop_underscores c s' else None
      else if Ascii.eqb prev underscore && negb (PyStr.is_decimal_digit c)
      then None
      else option_map (cons c) (drop_underscores c s')
  end.

(** The white space of the C locale: TAB..CR and SPACE. *)
Definition c_isspace (c : ascii) : bool :=
  PyStr.between 9 13 c || (PyStr.code c =? 32)%N.

Fixpoint drop_leading (s : list ascii) : list ascii :=
  match s with
  | c :: s' => if c_isspace c then drop_leading s' else s
  | [] => []
  end.

Definition trim (s : list ascii) : list ascii :=
  rev (drop_leading (rev (drop_leading s))).

(** ** The literal *)

Definition digit_value (c : ascii) : N := (PyStr.code c - 48)%N.

(** The longest run of digits at the front of [s], read onto [acc]: the
    value, the number of digits read, and the rest. *)
Fixpoint read_digits (s : list ascii) (acc : N) (count : nat)
  : N * nat * list ascii :=
  match s with
  | c :: s' =>
      if PyStr.is_decimal_digit c
      then read_digits s' (10 * acc + digit_value c)%N (S count)
      else (acc, count, s)
  | [] => (acc, count, [])
  end.

Definition read_sign (s : list ascii) : bool * list ascii :=
  match s with
  | c :: s' =>
      if Ascii.eqb c "-"%char then (true, s')
      else if Ascii.eqb c "+"%char then (false, s')
      else (false, s)
  | [] => (false, [])
  end.

(** What follows the digits: nothing, or e/E, a sign and at least one
    digit, up to the end of the text. *)
Definition parse_exponent (s : list ascii) : option Z :=
  match s with
  | [] => Some 0%Z
  | c :: s' =>
      if Ascii.eqb c "e"%char || Ascii.eqb c "E"%char then
        let (negative, s2) := read_sign s' in
        match read_digits s2 0 0 with
        | (v, S _, []) => Some (if negative then (- Z.of_N v)%Z else Z.of_N v)
        | _ => None
        end
      else None
  end.

(** Digits, an optional point and more digits (at least one digit in all),
    then the exponent: the digits as one number, and the power of ten. *)
Definition parse_decimal (s : list ascii) : option (N * Z) :=
  let '(m1, n1, r1) := read_digits s 0 0 in
  let '(m, n2, r2) :=
    match r1 with
    | c :: r => if Ascii.eqb c "."%char then read_digits r m1 0 else (m1, 0, r1)
    | [] => (m1, 0, r1)
    end in
  if (n1 + n2 =? 0)%nat then None
  else match parse_exponent r2 with
       | Some x => Some (m, (x - Z.of_nat n2)%Z)
       | None => None
       end.

Definition tolower (c : ascii) : ascii :=
  if PyStr.between 65 90 c then ascii_of_N (PyStr.code c + 32) else c.

(** inf, infinity and nan, in any case. *)
Definition parse_special (negative : bool) (s : list ascii) : option float :=
  let w := string_of_list_ascii (map tolower s) in
  if String.eqb w "inf" || String.eqb w "infinity" then Some (infinity negative)
  else if String.eqb w "nan" then Some nan
  else None.

Definition parse_literal (s : list ascii) : option float :=
  let (negative, body) := read_sign s in
  match parse_decimal body with
  | Some (m, e) => Some (of_decimal negative m e)
  | None => parse_special negative body
  end.

(** [float(s)]; [None] when the conversion raises. *)
Definition of_string (s : string) : option float :=
  match drop_underscores Ascii.zero (map to_ascii (PyStr.chars s)) with
  | Some cleaned => parse_literal (trim cleaned)
  | None => None
  end.

End PyFloat.

(* ================================================================== *)
(** * Exceptions *)
(* ================================================================== *)

(** The names of the seven fields of the form, and the sentinel
    [get_next_prompt] returns once the form is full.  In the source they
    are the texts given by [key_text]. *)
Inductive key : Type :=
| k_name | k_email | k_phone | k_experience
| k_position | k_location | k_tech_stack
| k_generate_questions.

Definition key_text (k : key) : string :=
  match k with
  | k_name => "name"
  | k_email => "email"
  | k_phone => "phone"
  | k_experience => "experience"
  | k_position => "position"
  | k_location => "location"
  | k_tech_stack => "tech_stack"
  | k_generate_questions => "generate_questions"
  end.

Definition key_eqb (a b : key) : bool := String.eqb (key_text a) (key_text b).

(** One entry of [ValidationError.errors()]: the field, who refused the
    value, and the reason given. *)
Inductive error_source : Type :=
| from_validator   (* a [@validator] method raised [ValueError] *)
| from_email_str.  (* the [EmailStr] type refused the text *)

Record error_detail : Type := {
  loc : key;
  source : error_source;
  reason : string
}.

(** The ['msg'] entry pydantic builds for an error. *)
Definition msg (d : error_detail) : string :=
  match source d with
  | from_validator => "Value error, " ++ reason d
  | from_email_str => "value is not a valid email address: " ++ reason d
  end.

(** The exceptions of the program, by the [except] clause that catches
    them: pydantic's [ValidationError] (it holds at least one error), any
    other [ValueError], any other [Exception]. *)
Inductive exn : Type :=
| ValidationError (first : error_detail) (others : list error_detail)
| ValueError (text : string)
| Exception (text : string).

Inductive result (A : Type) : Type :=
| Return (a : A)
| Raise (e : exn).
Arguments Return {A} a.
Arguments Raise {A} e.

Definition bind {A B : Type} (r : result A) (f : A -> result B) : result B :=
  match r with
  | Return a => f a
  | Raise e => Raise e
  end.

Notation "x <- r ;; k" := (bind r (fun x => k))
  (at level 61, r at next level, right associativity).

(** [float(user_input)]. *)
Definition py_float (s : string) : result PyFloat.float :=
  match PyFloat.of_string s with
  | Some v => Return v
  | None =>
      Raise (ValueError ("could not convert string to float: " ++ PyStr.repr s))
  end.

(* ================================================================== *)
(** * The collaborators outside the repository *)
(* ================================================================== *)

(** - [GOOGLE_API_KEY]: the environment variable, [None] when unset;
    - [email_validator]: the syntax check behind [EmailStr], which gives
      the normalised address or the reason for refusing the text;
    - [generate_content]: the Gemini call together with reading
      [response.text]; it returns the text or raises. *)
Record environment : Type := {
  GOOGLE_API_KEY : option string;
  email_validator : string -> string + string;
  generate_content : string -> result string
}.

(** Truth value of [str | None]. *)
Definition configured (k : option string) : bool :=
  match k with
  | Some s => PyStr.truthy s
  | None => false
  end.

(* ================================================================== *)
(** * ApplicantInfo and its validators *)
(* ================================================================== *)

Record ApplicantInfo : Type := {
  name : option string;
  email : option string;
  phone : option string;
  experience : option PyFloat.float;
  position : option string;
  location : option string;
  tech_stack : option string
}.

(** [ApplicantInfo()]: every field [None]. *)
Definition empty_info : ApplicantInfo :=
  {| name := None; email := None; phone := None; experience := None;
     position := None; location := None; tech_stack := None |}.

Definition validate_name (v : option string) : result (option string) :=
  match v with
  | Some s =>
      if negb (PyStr.all (fun x => PyStr.isalpha x || PyStr.isspace x) s)
         || negb (PyStr.truthy (PyStr.strip s))
      then Raise (ValueError
                    "Name must contain only alphabetic characters and spaces.")
      else Return v
  | None => Return v
  end.

Definition validate_phone (v : option string) : result (option string) :=
  match v with
  | Some s =>
      if negb (PyStr.isdigit s) || negb (PyStr.len s =? 10)%nat
      then Raise (ValueError "Phone number must be 10 digits (digits only).")
      else Return v
  | None => Return v
  end.

Definition validate_experience (v : option PyFloat.float)
  : result (option PyFloat.float) :=
  match v with
  | Some x =>
      if PyFloat.ltb x PyFloat.zero
      then Raise (ValueError "Experience cannot be negative.")
      else Return v
  | None => Return v
  end.

Definition validate_not_empty (v : option string) : result (option string) :=
  match v with
  | Some s =>
      if negb (PyStr.truthy (PyStr.strip s))
      then Raise (ValueError "This field cannot be empty.")
      else Return v
  | None => Return v
  end.

(** ** [model_dump] and [model_validate] *)

(** The dictionary [model_dump] returns: one entry per field. *)
Record dict : Type := {
  d_name : option string;
  d_email : option string;
  d_phone : option string;
  d_experience : option PyFloat.float;
  d_position : option string;
  d_location : option string;
  d_tech_stack : option string
}.

Definition model_dump (a : ApplicantInfo) : dict :=
  {| d_name := name a; d_email := email a; d_phone := phone a;
     d_experience := experience a; d_position := position a;
     d_location := location a; d_tech_stack := tech_stack a |}.

(** The value a field validator leaves, and the error it adds.  The
    validators above raise [ValueError] only. *)
Definition value_of {A : Type} (r : result (option A)) : option A :=
  match r with
  | Return v => v
  | Raise _ => None
  end.

Definition errors_of {A : Type} (k : key) (r : result A) : list error_detail :=
  match r with
  | Raise (ValueError text) =>
      [ {| loc := k; source := from_validator; reason := text |} ]
  | _ => []
  end.

(** The [EmailStr] type on [str | None]. *)
Definition email_str (E : environment) (v : option string)
  : option string * list error_detail :=
  match v with
  | Some s =>
      match email_validator E s with
      | inr normalized => (Some normalized, [])
      | inl why =>
          (None, [ {| loc := k_email; source := from_email_str; reason := why |} ])
      end
  | None => (None, [])
  end.

(** [ApplicantInfo.model_validate(d)]: every field is validated, in the
    order of the class; the errors are collected in that order. *)
Definition model_validate (E : environment) (d : dict) : result ApplicantInfo :=
  let r_name := validate_name (d_name d) in
  let r_email := email_str E (d_email d) in
  let r_phone := validate_phone (d_phone d) in
  let r_experience := validate_experience (d_experience d) in
  let r_position := validate_not_empty (d_position d) in
  let r_location := validate_not_empty (d_location d) in
  let r_tech_stack := validate_not_empty (d_tech_stack d) in
  match (errors_of k_name r_name ++ snd r_email
         ++ errors_of k_phone r_phone
         ++ errors_of k_experience r_experience
         ++ errors_of k_position r_position
         ++ errors_of k_location r_location
         ++ errors_of k_tech_stack r_tech_stack)%list
  with
  | [] =>
      Return {| name := value_of r_name; email := fst r_email;
                phone := value_of r_phone;
                experience := value_of r_experience;
                position := value_of r_position;
                location := value_of r_location;
                tech_stack := value_of r_tech_stack |}
  | d :: ds => Raise (ValidationError d ds)
  end.

(** Lines 238 to 244: the dump of the profile with the pending field set
    from the input, parsed as a float when the field is [experience].  The
    sentinel is no field of the class: an entry under it is ignored by
    [model_validate]. *)
Definition with_entry (d : dict) (k : key) (user_input : string) : result dict :=
  match k with
  | k_experience =>
      x <- py_float user_input ;;
      Return {| d_name := d_name d; d_email := d_email d; d_phone := d_phone d;
                d_experience := Some x; d_position := d_position d;
                d_location := d_location d; d_tech_stack := d_tech_stack d |}
  | k_name =>
      Return {| d_name := Some user_input; d_email := d_email d;
                d_phone := d_phone d; d_experience := d_experience d;
                d_position := d_position d; d_location := d_location d;
                d_tech_stack := d_tech_stack d |}
  | k_email =>
      Return {| d_name := d_name d; d_email := Some user_input;
                d_phone := d_phone d; d_experience := d_experience d;
                d_position := d_position d; d_location := d_location d;
                d_tech_stack := d_tech_stack d |}
  | k_phone =>
      Return {| d_name := d_name d; d_email := d_email d;
                d_phone := Some user_input; d_experience := d_experience d;
                d_position := d_position d; d_location := d_location d;
                d_tech_stack := d_tech_stack d |}
  | k_position =>
      Return {| d_name := d_name d; d_email := d_email d; d_phone := d_phone d;
                d_experience := d_experience d; d_position := Some user_input;
                d_location := d_location d; d_tech_stack := d_tech_stack d |}
  | k_location =>
      Return {| d_name := d_name d; d_email := d_email d; d_phone := d_phone d;
                d_experience := d_experience d; d_position := d_position d;
                d_location := Some user_input; d_tech_stack := d_tech_stack d |}
  | k_tech_stack =>
      Return {| d_name := d_name d; d_email := d_email d; d_phone := d_phone d;
                d_experience := d_experience d; d_position := d_position d;
                d_location := d_location d; d_tech_stack := Some user_input |}
  | k_generate_questions => Return d
  end.

(** Lines 238 to 248: the profile the input leads to, or the exception. *)
Definition updated_info (E : environment) (a : ApplicantInfo) (k : key)
    (user_input : string) : result ApplicantInfo :=
  temp_data <- with_entry (model_dump a) k user_input ;;
  model_validate E temp_data.

(* ================================================================== *)
(** * The sequencer *)
(* ================================================================== *)

(** The text an f-string or [str.format] puts for a [str | None] value. *)
Definition py_str (v : option string) : string :=
  match v with
  | Some s => s
  | None => "None"
  end.

Definition acknowledgment_template : string :=
  "Thank you. I will now generate a few technical questions based on your tech stack: {tech_stack}. Please wait a moment.".

Definition get_next_prompt (applicant_info : ApplicantInfo) : string * key :=
  match name applicant_info with
  | None =>
      ("Hello! I'm an intelligent hiring assistant from TalentScout. I'm here to ask you a few questions to get started with your application. What is your full name?",
       k_name)
  | Some _ =>
  match email applicant_info with
  | None =>
      ("Thanks, " ++ py_str (name applicant_info)
         ++ ". What's your email address?", k_email)
  | Some _ =>
  match phone applicant_info with
  | None => ("Got it. What is your phone number?", k_phone)
  | Some _ =>
  match experience applicant_info with
  | None =>
      ("Great. How many years of professional experience do you have?",
       k_experience)
  | Some _ =>
  match position applicant_info with
  | None => ("Thanks. What is your desired position or role?", k_position)
  | Some _ =>
  match location applicant_info with
  | None => ("Okay. Where are you currently located?", k_location)
  | Some _ =>
  match tech_stack applicant_info with
  | None =>
      ("Understood. Please list your primary tech stack (e.g., Python, React, Node.js, PostgreSQL).",
       k_tech_stack)
  | Some _ => (acknowledgment_template, k_generate_questions)
  end end end end end end end.

(* ================================================================== *)
(** * The generation adapter *)
(* ================================================================== *)

Definition newline : string := String (ascii_of_N 10) EmptyString.
Definition quote : string := String PyStr.double_quote EmptyString.
Definition indent : string := "        ".

(** The f-string of lines 92 to 104. *)
Definition question_prompt (tech_stack : string) : string :=
  newline
  ++ indent ++ "You are a senior technical recruiter for a fictional agency called "
     ++ quote ++ "TalentScout" ++ quote ++ "." ++ newline
  ++ indent ++ "Your role is to conduct an initial screening of a candidate." ++ newline
  ++ indent ++ "Based on the tech stack provided by the candidate, generate exactly 4 relevant technical questions." ++ newline
  ++ indent ++ "The questions should be designed to assess their fundamental knowledge and practical experience." ++ newline
  ++ indent ++ "Do not ask trivia. Ask concept-based questions." ++ newline
  ++ indent ++ "Question should be clear relevant to the tech stack." ++ newline
  ++ indent ++ "Return the questions as a single string, with each question numbered." ++ newline
  ++ indent ++ "Display the questions in a  bulleted list format and new line as well." ++ newline
  ++ newline
  ++ newline
  ++ indent ++ "Candidate's Tech Stack: " ++ quote ++ tech_stack ++ quote ++ newline
  ++ indent.

Definition fallback_message : string :=
  "I was unable to generate the technical questions at this moment. We can proceed without them. Thank you for your understanding.".

(** [try: ... except Exception]: every exception of [exn] is caught.  The
    [st.error] call of the handler only draws on the page. *)
Definition generate_technical_questions (E : environment) (tech_stack : string)
  : result string :=
  if negb (configured (GOOGLE_API_KEY E))
  then Return "Error: API Key is not configured."
  else
    match generate_content E (question_prompt tech_stack) with
    | Return text => Return text
    | Raise _ => Return fallback_message
    end.

(* ================================================================== *)
(** * The session and the processing of one input *)
(* ================================================================== *)

Inductive role : Type := assistant | user.

Record message : Type := { msg_role : role; content : string }.

(** [st.session_state], and [generation_calls]: a history variable that
    lists the arguments [generate_technical_questions] was called with,
    oldest first. *)
Record session_state : Type := {
  messages : list message;
  applicant_info : ApplicantInfo;
  current_field_to_fill : option key;
  conversation_finished : bool;
  generation_calls : list string
}.

(** Lines 201 to 208. *)
Definition fresh_session : session_state :=
  {| messages := []; applicant_info := empty_info;
     current_field_to_fill := None; conversation_finished := false;
     generation_calls := [] |}.

Definition append_message (st : session_state) (r : role) (text : string)
  : session_state :=
  {| messages := messages st ++ [ {| msg_role := r; content := text |} ];
     applicant_info := applicant_info st;
     current_field_to_fill := current_field_to_fill st;
     conversation_finished := conversation_finished st;
     generation_calls := generation_calls st |}.

Definition set_applicant_info (st : session_state) (a : ApplicantInfo)
  : session_state :=
  {| messages := messages st; applicant_info := a;
     current_field_to_fill := current_field_to_fill st;
     conversation_finished := conversation_finished st;
     generation_calls := generation_calls st |}.

Definition set_current_field (st : session_state) (k : option key)
  : session_state :=
  {| messages := messages st; applicant_info := applicant_info st;
     current_field_to_fill := k;
     conversation_finished := conversation_finished st;
     generation_calls := generation_calls st |}.

Definition set_finished (st : session_state) (b : bool) : session_state :=
  {| messages := messages st; applicant_info := applicant_info st;
     current_field_to_fill := current_field_to_fill st;
     conversation_finished := b;
     generation_calls := generation_calls st |}.

Definition record_call (st : session_state) (argument : string)
  : session_state :=
  {| messages := messages st; applicant_info := applicant_info st;
     current_field_to_fill := current_field_to_fill st;
     conversation_finished := conversation_finished st;
     generation_calls := generation_calls st ++ [argument] |}.

Definition farewell_message : string :=
  "Thank you for answering the questions. That's all I need for now. The TalentScout team will review your submission and get back to you soon. Have a great day!".

Definition apology_message : string :=
  "I'm sorry, I didn't quite understand that. Let's start over.".

Definition termination_keywords : list string := ["bye"; "exit"; "quit"].

(** Line 231. *)
Definition is_termination (user_input : string) : bool :=
  PyStr.mem (PyStr.lower user_input) termination_keywords.

(** The three [except] clauses of lines 280 to 289, in their order. *)
Definition error_response (e : exn) : string :=
  match e with
  | ValidationError first _ =>
      "Validation Error: " ++ msg first ++ ". Please try again."
  | ValueError text => "Input Error: " ++ text ++ ". Please try again."
  | Exception text =>
      "An unexpected error occurred: " ++ text ++ ". Please try again."
  end.

Definition placeholder : string := "{tech_stack}".

(** [template.format(tech_stack=value)] for a template whose only
    replacement field is [{tech_stack}]; [skip] counts the characters of a
    field still to pass over. *)
Fixpoint format_from (skip : nat) (template value : string) : string :=
  match template with
  | EmptyString => EmptyString
  | String c rest =>
      match skip with
      | S n => format_from n rest value
      | O =>
          if String.prefix placeholder template
          then value ++ format_from (PyStr.len placeholder - 1) rest value
          else String c (format_from 0 rest value)
      end
  end.

Definition format_tech_stack (template value : string) : string :=
  format_from 0 template value.

(** Lines 237 to 289: the [try] statement, for the pending field [k].  It
    gives the session state it leaves and [assistant_response_content]. *)
Definition try_update (E : environment) (st : session_state) (k : key)
    (user_input : string) : session_state * string :=
  match updated_info E (applicant_info st) k user_input with
  | Raise e => (st, error_response e)
  | Return info =>
      let st := set_applicant_info st info in
      let '(next_prompt, next_field_to_fill) := get_next_prompt info in
      let st := set_current_field st (Some next_field_to_fill) in
      if key_eqb next_field_to_fill k_generate_questions then
        let ack_message :=
          format_tech_stack next_prompt (py_str (tech_stack info)) in
        let st := append_message st assistant ack_message in
        let st := record_call st (py_str (tech_stack info)) in
        match generate_technical_questions E (py_str (tech_stack info)) with
        | Return tech_questions =>
            let st := append_message st assistant tech_questions in
            (set_current_field (set_finished st true) None, farewell_message)
        | Raise e => (st, error_response e)
        end
      else (st, next_prompt)
  end.

(** Lines 225 to 301: what the script does with a submitted input. *)
Definition process_input (E : environment) (st : session_state)
    (user_input : string) : session_state :=
  let st := append_message st user user_input in
  let '(st, assistant_response_content) :=
    if is_termination user_input then
      (set_current_field (set_finished st true) None, farewell_message)
    else
      match current_field_to_fill st with
      | Some k => try_update E st k user_input
      | None => (set_finished st true, apology_message)
      end in
  if PyStr.truthy assistant_response_content
  then append_message st assistant assistant_response_content
  else st.

(** Lines 211 to 214. *)
Definition first_prompt (st : session_state) : session_state :=
  match messages st with
  | [] =>
      let '(initial_prompt, field_to_fill) :=
        get_next_prompt (applicant_info st) in
      set_current_field (append_message st assistant initial_prompt)
        (Some field_to_fill)
  | _ :: _ => st
  end.

(** One run of the script on the session state; [user_input] is what
    [st.chat_input] returns, [None] when nothing was submitted.  Without an
    API key the script stops at line 13, before it reads the session. *)
Definition script_run (E : environment) (st : session_state)
    (user_input : option string) : session_state :=
  if negb (configured (GOOGLE_API_KEY E)) then st
  else
    let st := first_prompt st in
    if negb (conversation_finished st) then
      match user_input with
      | Some text => if PyStr.truthy text then process_input E st text else st
      | None => st
      end
    else st.

(** The session after a sequence of script runs. *)
Definition run (E : environment) (inputs : list (option string))
  : session_state :=
  fold_left (script_run E) inputs fresh_session.

(** What the page shows once the conversation is finished (line 305). *)
Definition final_export (st : session_state) : dict :=
  model_dump (applicant_info st).

(* ================================================================== *)
(** * Sample environments *)
(* ================================================================== *)

(** Concrete collaborators, to run the model on concrete sessions.  The
    e-mail check stands in for the library behind [EmailStr]: it accepts a
    text with no white space that has one at-sign, something before it and
    a dot after it, and leaves the text as it is. *)
Module Sample.

Fixpoint split_at (c : ascii) (s : string) : option (string * string) :=
  match s with
  | EmptyString => None
  | String x s' =>
      if Ascii.eqb x c then Some (EmptyString, s')
      else match split_at c s' with
           | Some (l, r) => Some (String x l, r)
           | None => None
           end
  end.

Definition check_email (s : string) : string + string :=
  match split_at "@"%char s with
  | Some (local_part, domain) =>
      if PyStr.truthy local_part
         && PyStr.contains_char "."%char domain
         && negb (PyStr.contains_char "@"%char domain)
         && negb (existsb PyStr.isspace (PyStr.chars s))
      then inr s
      else inl "The email address is not valid."
  | None => inl "An email address must have an @-sign."
  end.

Definition questions : string := "1. What is a Python generator?".

(** The service answers. *)
Definition answering : environment :=
  {| GOOGLE_API_KEY := Some "key";
     email_validator := check_email;
     generate_content := fun _ => Return questions |}.

(** The service fails. *)
Definition failing : environment :=
  {| GOOGLE_API_KEY := Some "key";
     email_validator := check_email;
     generate_content := fun _ => Raise (Exception "503 Service Unavailable") |}.

(** The six answers of scenario A that come before the tech stack. *)
Definition six_answers : list (option string) :=
  [Some "Jane Doe"; Some "jane@x.com"; Some "9876543210"; Some "2";
   Some "Backend Engineer"; Some "Berlin"].

End Sample.

(* ================================================================== *)
(** * The vocabulary of the properties *)
(* ================================================================== *)

(** The order in which the fields are asked for. *)
Definition collecting_order : list key :=
  [k_name; k_email; k_phone; k_experience; k_position; k_location;
   k_tech_stack].

(** [v is not None]. *)
Definition is_some {A : Type} (v : option A) : bool :=
  match v with Some _ => true | None => false end.

(** The field [k] of the profile holds a value. *)
Definition populated (a : ApplicantInfo) (k : key) : bool :=
  match k with
  | k_name => is_some (name a)
  | k_email => is_some (email a)
  | k_phone => is_some (phone a)
  | k_experience => is_some (experience a)
  | k_position => is_some (position a)
  | k_location => is_some (location a)
  | k_tech_stack => is_some (tech_stack a)
  | k_generate_questions => false
  end.

(** Exactly the first [n] fields of the collecting order are populated. *)
Definition first_populated (n : nat) (a : ApplicantInfo) : Prop :=
  map (populated a) collecting_order = (repeat true n ++ repeat false (7 - n))%list.

(** The target after [n] fields: the next field, the sentinel after seven. *)
Definition target_after (n : nat) : key :=
  nth n collecting_order k_generate_questions.

(** The question that asks for a field, and the acknowledgment under the
    sentinel. *)
Definition prompt_of (a : ApplicantInfo) (k : key) : string :=
  match k with
  | k_name =>
      "Hello! I'm an intelligent hiring assistant from TalentScout. I'm here to ask you a few questions to get started with your application. What is your full name?"
  | k_email => "Thanks, " ++ py_str (name a) ++ ". What's your email address?"
  | k_phone => "Got it. What is your phone number?"
  | k_experience =>
      "Great. How many years of professional experience do you have?"
  | k_position => "Thanks. What is your desired position or role?"
  | k_location => "Okay. Where are you currently located?"
  | k_tech_stack =>
      "Understood. Please list your primary tech stack (e.g., Python, React, Node.js, PostgreSQL)."
  | k_generate_questions =>
      "Thank you. I will now generate a few technical questions based on your tech stack: {tech_stack}. Please wait a moment."
  end.

(** A validator accepts a value when it returns. *)
Definition accepts {A : Type} (r : result A) : bool :=
  match r with
  | Return _ => true
  | Raise _ => false
  end.

(** Ten times the superscript two, U+00B2. *)
Definition superscript_twos : string :=
  string_of_list_ascii (repeat (ascii_of_N 178) 10).

(** Every character of the text is below U+0080. *)
Definition is_ascii (s : string) : bool :=
  PyStr.all (fun c => (PyStr.code c <? 128)%N) s.

(** Something is left after trimming. *)
Definition non_blank (s : string) : bool := PyStr.truthy (PyStr.strip s).

(** Every character is alphabetic or white space. *)
Definition alphabetic_or_space (s : string) : bool :=
  PyStr.all (fun x => PyStr.isalpha x || PyStr.isspace x) s.

(** Not blank after trimming, and alphabetic or white space throughout. *)
Definition name_ok (s : string) : bool := non_blank s && alphabetic_or_space s.

(** Exactly ten characters, all digits. *)
Definition phone_ok (s : string) : bool :=
  (PyStr.len s =? 10)%nat && PyStr.all PyStr.isdigit_char s.

(** [x >= 0]. *)
Definition at_least_zero (x : PyFloat.float) : bool :=
  PyFloat.leb PyFloat.zero x.

(** [not (x < 0)]: what [validate_experience] checks. *)
Definition not_negative (x : PyFloat.float) : bool :=
  negb (PyFloat.ltb x PyFloat.zero).

(** A field is absent or satisfies [p]. *)
Definition holds {A : Type} (p : A -> bool) (v : option A) : bool :=
  match v with
  | Some x => p x
  | None => true
  end.

(** Each populated field satisfies its constraint, with [experience_ok]
    the constraint on the experience. *)
Definition constraints (experience_ok : PyFloat.float -> bool)
    (a : ApplicantInfo) : bool :=
  holds name_ok (name a)
  && holds phone_ok (phone a)
  && holds experience_ok (experience a)
  && holds non_blank (position a)
  && holds non_blank (location a)
  && holds non_blank (tech_stack a).

(** The message with text [text] from [r]. *)
Definition said (r : role) (text : string) : message :=
  {| msg_role := r; content := text |}.

(** The acknowledgment with the tech stack put in. *)
Definition acknowledgment (t : string) : string :=
  "Thank you. I will now generate a few technical questions based on your tech stack: "
  ++ t ++ ". Please wait a moment.".

(** A sample session in which the e-mail address is pending. *)
Definition after_name : session_state :=
  run Sample.answering [Some "Jane Doe"].

(** The session after the six answers of [Sample.six_answers]. *)
Definition before_tech_stack (E : environment) : session_state :=
  run E Sample.six_answers.

(** The text of the [ValueError] a validator raised, if it raised one. *)
Definition raised_text {A : Type} (r : result A) : option string :=
  match r with
  | Raise (ValueError text) => Some text
  | _ => None
  end.

(** The reason the validator of field [k] gives for refusing the entry of
    [d] under [k]; [None] when it accepts the entry. *)
Definition refusal (E : environment) (d : dict) (k : key) : option string :=
  match k with
  | k_name => raised_text (validate_name (d_name d))
  | k_email =>
      match d_email d with
      | Some s =>
          match email_validator E s with
          | inl why => Some why
          | inr _ => None
          end
      | None => None
      end
  | k_phone => raised_text (validate_phone (d_phone d))
  | k_experience => raised_text (validate_experience (d_experience d))
  | k_position => raised_text (validate_not_empty (d_position d))
  | k_location => raised_text (validate_not_empty (d_location d))
  | k_tech_stack => raised_text (validate_not_empty (d_tech_stack d))
  | k_generate_questions => None
  end.

(** The reason an exception carries: the one of the first error of a
    [ValidationError], the text of any other exception. *)
Definition raised_reason (e : exn) : string :=
  match e with
  | ValidationError first _ => reason first
  | ValueError text => text
  | Exception text => text
  end.

(** The first or the last character of the text is white space. *)
Definition space_at_an_end (s : string) : Prop :=
  exists c,
    (PyStr.first_char s = Some c \/ PyStr.last_char s = Some c)
    /\ PyStr.isspace c = true.

(** A termination keyword with white space before it or after it. *)
Definition padded_keyword (s : string) : Prop :=
  exists l w r,
    s = l ++ w ++ r
    /\ PyStr.all PyStr.isspace l = true
    /\ PyStr.all PyStr.isspace r = true
    /\ (l <> EmptyString \/ r <> EmptyString)
    /\ is_termination w = true.

(** The flags of the seven fields of a dictionary. *)
Definition entries (d : dict) : list bool :=
  [is_some (d_name d); is_some (d_email d); is_some (d_phone d);
   is_some (d_experience d); is_some (d_position d); is_some (d_location d);
   is_some (d_tech_stack d)].

(** The flags after the entry under [k] is set. *)
Definition with_flag (k : key) (flags : list bool) : list bool :=
  match k, flags with
  | k_name, [_; b2; b3; b4; b5; b6; b7] => [true; b2; b3; b4; b5; b6; b7]
  | k_email, [b1; _; b3; b4; b5; b6; b7] => [b1; true; b3; b4; b5; b6; b7]
  | k_phone, [b1; b2; _; b4; b5; b6; b7] => [b1; b2; true; b4; b5; b6; b7]
  | k_experience, [b1; b2; b3; _; b5; b6; b7] => [b1; b2; b3; true; b5; b6; b7]
  | k_position, [b1; b2; b3; b4; _; b6; b7] => [b1; b2; b3; b4; true; b6; b7]
  | k_location, [b1; b2; b3; b4; b5; _; b7] => [b1; b2; b3; b4; b5; true; b7]
  | k_tech_stack, [b1; b2; b3; b4; b5; b6; _] => [b1; b2; b3; b4; b5; b6; true]
  | _, _ => flags
  end.

(** The target of the sequencer, from the flags of the fields. *)
Definition target_of (flags : list bool) : key :=
  match flags with
  | [b1; b2; b3; b4; b5; b6; b7] =>
      if negb b1 then k_name
      else if negb b2 then k_email
      else if negb b3 then k_phone
      else if negb b4 then k_experience
      else if negb b5 then k_position
      else if negb b6 then k_location
      else if negb b7 then k_tech_stack
      else k_generate_questions
  | _ => k_generate_questions
  end.

(** Every field of the dictionary has a value. *)
Definition complete (d : dict) : bool := forallb (fun b => b) (entries d).

(** While the conversation is open: no generation call was made so far,
    the tech stack is absent, and once the first prompt is out the pending
    field is the target of the sequencer. *)
Definition collecting_state (st : session_state) : Prop :=
  conversation_finished st = false ->
  generation_calls st = []
  /\ tech_stack (applicant_info st) = None
  /\ (messages st <> [] ->
      current_field_to_fill st
      = Some (snd (get_next_prompt (applicant_info st)))).

(** What every session satisfies: at most one generation call so far, and
    [collecting_state]. *)
Definition session_inv (st : session_state) : Prop :=
  (length (generation_calls st) <= 1)%nat /\ collecting_state st.

(** A step without a generation call: the tech stack is as before. *)
Definition quiet_step (st st' : session_state) : Prop :=
  generation_calls st' = generation_calls st
  /\ tech_stack (applicant_info st') = tech_stack (applicant_info st).

(** The step that sets the tech stack: one call, with the value set. *)
Definition generating_step (st st' : session_state) : Prop :=
  exists t,
    conversation_finished st = false
    /\ tech_stack (applicant_info st) = None
    /\ generation_calls st = []
    /\ tech_stack (applicant_info st') = Some t
    /\ generation_calls st' = [t]
    /\ conversation_finished st' = true
    /\ complete (final_export st') = true.

(** The validators leave the stored profile as it is: validating its dump
    again gives the profile back. *)
Definition stable (E : environment) (a : ApplicantInfo) : Prop :=
  model_validate E (model_dump a) = Return a.

(** The profile [a] with [x] as the experience. *)
Definition with_experience (a : ApplicantInfo) (x : PyFloat.float)
  : ApplicantInfo :=
  {| name := name a; email := email a; phone := phone a;
     experience := Some x; position := position a; location := location a;
     tech_stack := tech_stack a |}.

(** The numbers -1 and 3.5 as binary64 values. *)
Definition minus_one : PyFloat.float := S754_finite true 4503599627370496 (-52).
Definition three_and_a_half : PyFloat.float :=
  S754_finite false 7881299347898368 (-51).

(** A sample session in which the experience is pending. *)
Definition before_experience : session_state :=
  run Sample.answering
    [Some "Jane Doe"; Some "jane@x.com"; Some "9876543210"].

(** ** Further vocabulary: validators, updates and whole sessions *)

(** Some character of the text satisfies [p]. *)
Definition some_char (p : ascii -> bool) (s : string) : bool :=
  existsb p (PyStr.chars s).

(** A number below zero: a negative finite number that is not a zero, or
    minus infinity. *)
Definition below_zero (x : PyFloat.float) : bool :=
  match x with
  | S754_infinity true => true
  | S754_finite true _ _ => true
  | _ => false
  end.

(** The profile [a] with the text [s] under the field [k]; [a] itself for
    the experience and for the sentinel. *)
Definition with_text (a : ApplicantInfo) (k : key) (s : string)
  : ApplicantInfo :=
  {| name := if key_eqb k k_name then Some s else name a;
     email := if key_eqb k k_email then Some s else email a;
     phone := if key_eqb k k_phone then Some s else phone a;
     experience := experience a;
     position := if key_eqb k k_position then Some s else position a;
     location := if key_eqb k k_location then Some s else location a;
     tech_stack := if key_eqb k k_tech_stack then Some s else tech_stack a |}.

(** The flags of a profile in which exactly the first [n] fields are
    populated. *)
Definition prefix_flags (n : nat) : list bool :=
  (repeat true n ++ repeat false (7 - n))%list.

(** The first message of every transcript. *)
Definition greeting : string := prompt_of empty_info k_name.

(** No text field that keeps the input as it is holds a termination
    keyword. *)
Definition keyword_free (a : ApplicantInfo) : bool :=
  holds (fun s => negb (is_termination s)) (name a)
  && holds (fun s => negb (is_termination s)) (phone a)
  && holds (fun s => negb (is_termination s)) (position a)
  && holds (fun s => negb (is_termination s)) (location a)
  && holds (fun s => negb (is_termination s)) (tech_stack a).

(** The last message of a transcript. *)
Definition last_message (l : list message) : option message :=
  match rev l with
  | m :: _ => Some m
  | [] => None
  end.

(** An environment in which the API key is not set. *)
Definition unconfigured : environment :=
  {| GOOGLE_API_KEY := None;
     email_validator := Sample.check_email;
     generate_content := fun _ => Return Sample.questions |}.

(** A finished conversation ends with the farewell. *)
Definition ends_with_farewell (st : session_state) : Prop :=
  conversation_finished st = true ->
  last_message (messages st) = Some (said assistant farewell_message).

(** A transcript that is not empty starts with the greeting; an empty one
    goes with the empty profile. *)
Definition starts_with_greeting (st : session_state) : Prop :=
  (messages st = [] /\ applicant_info st = empty_info)
  \/ exists rest, messages st = said assistant greeting :: rest.

(** Every field that holds a value in [a] holds the same value in [a']. *)
Definition keeps_answers (a a' : ApplicantInfo) : Prop :=
  (forall v, name a = Some v -> name a' = Some v)
  /\ (forall v, email a = Some v -> email a' = Some v)
  /\ (forall v, phone a = Some v -> phone a' = Some v)
  /\ (forall v, experience a = Some v -> experience a' = Some v)
  /\ (forall v, position a = Some v -> position a' = Some v)
  /\ (forall v, location a = Some v -> location a' = Some v)
  /\ (forall v, tech_stack a = Some v -> tech_stack a' = Some v).

(** Exactly ten characters, all decimal digits. *)
Definition phone_decimal (s : string) : bool :=
  (PyStr.len s =? 10)%nat && PyStr.all PyStr.is_decimal_digit s.

(** The constraints in the words of the data model: decimal digits for
    the phone, at least zero for the experience. *)
Definition constraints_as_worded (a : ApplicantInfo) : bool :=
  holds name_ok (name a)
  && holds phone_decimal (phone a)
  && holds at_least_zero (experience a)
  && holds non_blank (position a)
  && holds non_blank (location a)
  && holds non_blank (tech_stack a).

(** The run of scenario A up to the phone, with ten superscript twos as
    the phone. *)
Definition superscript_phone_run : list (option string) :=
  [Some "Jane Doe"; Some "jane@x.com"; Some superscript_twos].

(** The run of scenario A up to the experience, with nan as the
    experience. *)
Definition nan_experience_run : list (option string) :=
  [Some "Jane Doe"; Some "jane@x.com"; Some "9876543210"; Some "nan"].

(** The final export of scenario A: the seven answers, the experience 2
    as the binary64 number 2.0. *)
Definition scenario_A_export : dict :=
  {| d_name := Some "Jane Doe"; d_email := Some "jane@x.com";
     d_phone := Some "9876543210";
     d_experience := Some (S754_finite false 4503599627370496 (-51));
     d_position := Some "Backend Engineer";
     d_location := Some "Berlin";
     d_tech_stack := Some "Python, PostgreSQL" |}.

(* ================================================================== *)
(** * Properties of the sequencer *)
(* ================================================================== *)

Lemma is_some_true {A : Type} (v : option A) :
  is_some v = true -> exists x, v = Some x.
Proof. destruct v; [eauto | discriminate]. Qed.

Lemma is_some_false {A : Type} (v : option A) : is_some v = false -> v = None.
Proof. destruct v; [discriminate | reflexivity]. Qed.

(** The prompt always comes from the table, whatever the profile. *)
Lemma get_next_prompt_table (a : ApplicantInfo) :
  fst (get_next_prompt a) = prompt_of a (snd (get_next_prompt a)).
Proof.
  destruct a as [n e p x po l t].
  destruct n, e, p, x, po, l, t; reflexivity.
Qed.

(** C1. With exactly the first [n] fields populated, [n] from 0 to 6,
    [get_next_prompt] returns the field number [n + 1] of the collecting
    order as the target, with the question of that field; with all seven
    populated it returns the sentinel [generate_questions] with the
    acknowledgment. *)
Theorem get_next_prompt_first_absent (a : ApplicantInfo) (n : nat) :
  (n <= 7)%nat ->
  first_populated n a ->
  get_next_prompt a = (prompt_of a (target_after n), target_after n)
  /\ (n = 7%nat ->
      get_next_prompt a = (acknowledgment_template, k_generate_questions)).
Proof.
  intros Hn H. destruct a as [vn ve vp vx vo vl vt].
  unfold first_populated in H.
  assert (Hcases : (n = 0 \/ n = 1 \/ n = 2 \/ n = 3 \/ n = 4 \/ n = 5
                    \/ n = 6 \/ n = 7)%nat) by lia.
  repeat destruct Hcases as [-> | Hcases]; try subst n;
    cbn in H; injection H as H1 H2 H3 H4 H5 H6 H7;
    destruct vn, ve, vp, vx, vo, vl, vt; try discriminate;
    (split; [reflexivity | intros; first [discriminate | reflexivity]]).
Qed.

Lemma get_next_prompt_first_absent_witness :
  first_populated 2
    {| name := Some "Jane Doe"; email := Some "jane@x.com"; phone := None;
       experience := None; position := None; location := None;
       tech_stack := None |}
  /\ get_next_prompt
       {| name := Some "Jane Doe"; email := Some "jane@x.com"; phone := None;
          experience := None; position := None; location := None;
          tech_stack := None |}
     = ("Got it. What is your phone number?", k_phone).
Proof.
  split; [reflexivity |].
  apply (get_next_prompt_first_absent
           {| name := Some "Jane Doe"; email := Some "jane@x.com";
              phone := None; experience := None; position := None;
              location := None; tech_stack := None |} 2);
    [lia | reflexivity].
Defined.

(* ================================================================== *)
(** * Properties of the validators *)
(* ================================================================== *)

Lemma isdigit_char_ascii (c : ascii) :
  (PyStr.code c <? 128)%N = true ->
  PyStr.isdigit_char c = PyStr.is_decimal_digit c.
Proof.
  intros H. apply N.ltb_lt in H. unfold PyStr.isdigit_char.
  destruct (N.eqb_spec (PyStr.code c) 178); [lia |].
  destruct (N.eqb_spec (PyStr.code c) 179); [lia |].
  destruct (N.eqb_spec (PyStr.code c) 185); [lia |].
  now rewrite !orb_false_r.
Qed.

Lemma all_isdigit_ascii (s : string) :
  is_ascii s = true ->
  PyStr.all PyStr.isdigit_char s = PyStr.all PyStr.is_decimal_digit s.
Proof.
  unfold is_ascii, PyStr.all, PyStr.chars.
  induction s as [| c s IH]; cbn; [reflexivity |].
  intros H. apply andb_prop in H as [Hc Hs].
  now rewrite (isdigit_char_ascii c Hc), (IH Hs).
Qed.

Lemma validate_phone_spec (s : string) :
  validate_phone (Some s) =
    if (PyStr.len s =? 10)%nat && PyStr.all PyStr.isdigit_char s
    then Return (Some s)
    else Raise (ValueError "Phone number must be 10 digits (digits only).").
Proof.
  unfold validate_phone, PyStr.isdigit.
  destruct s as [| c s]; [reflexivity |].
  cbn [PyStr.truthy andb].
  destruct (PyStr.all PyStr.isdigit_char (String c s)),
    (PyStr.len (String c s) =? 10)%nat; reflexivity.
Qed.

(** C7, as the code has it. The phone validator accepts a text if and only
    if it has exactly 10 characters and every character is a digit in the
    sense of [str.isdigit]; any other text is refused with the message of
    the validator. On a text of ASCII characters that is: exactly 10
    decimal digits. It accepts 9876543210 and refuses 98765 and
    98765432ab. *)
Theorem validate_phone_accepts (s : string) :
  (validate_phone (Some s) = Return (Some s)
   <-> PyStr.len s = 10%nat /\ PyStr.all PyStr.isdigit_char s = true)
  /\ (accepts (validate_phone (Some s)) = false
      <-> validate_phone (Some s)
          = Raise (ValueError "Phone number must be 10 digits (digits only)."))
  /\ (is_ascii s = true ->
      (accepts (validate_phone (Some s)) = true
       <-> PyStr.len s = 10%nat /\ PyStr.all PyStr.is_decimal_digit s = true))
  /\ accepts (validate_phone (Some "9876543210")) = true
  /\ accepts (validate_phone (Some "98765")) = false
  /\ accepts (validate_phone (Some "98765432ab")) = false.
Proof.
  rewrite validate_phone_spec.
  split; [| split; [| split; [| repeat split]]].
  - destruct (Nat.eqb_spec (PyStr.len s) 10) as [Hl | Hl];
      destruct (PyStr.all PyStr.isdigit_char s); cbn;
      intuition (try discriminate; try congruence).
  - destruct ((PyStr.len s =? 10)%nat && PyStr.all PyStr.isdigit_char s);
      cbn; intuition (try discriminate; try congruence).
  - intros Ha. rewrite <- (all_isdigit_ascii s Ha).
    destruct (Nat.eqb_spec (PyStr.len s) 10) as [Hl | Hl];
      destruct (PyStr.all PyStr.isdigit_char s); cbn;
      intuition (try discriminate; try congruence).
Qed.

(** C7, as the claim states it, fails: ten superscript twos are accepted,
    and none of them is a decimal digit. *)
Lemma validate_phone_accepts_superscripts :
  PyStr.len superscript_twos = 10%nat
  /\ validate_phone (Some superscript_twos) = Return (Some superscript_twos)
  /\ PyStr.all PyStr.is_decimal_digit superscript_twos = false.
Proof. repeat split. Qed.

(** ** The constraints of the fields *)

Lemma validate_name_value (v : option string) :
  holds name_ok (value_of (validate_name v)) = true.
Proof.
  destruct v as [s |]; [| reflexivity]. unfold validate_name.
  destruct (PyStr.all _ s) eqn:Ha, (PyStr.truthy (PyStr.strip s)) eqn:Hs;
    cbn; try reflexivity.
  unfold name_ok, non_blank, alphabetic_or_space. now rewrite Ha, Hs.
Qed.

Lemma validate_phone_value (v : option string) :
  holds phone_ok (value_of (validate_phone v)) = true.
Proof.
  destruct v as [s |]; [| reflexivity]. rewrite validate_phone_spec.
  unfold phone_ok.
  destruct ((PyStr.len s =? 10)%nat && PyStr.all PyStr.isdigit_char s) eqn:H;
    cbn; [exact H | reflexivity].
Qed.

Lemma validate_experience_value (v : option PyFloat.float) :
  holds not_negative (value_of (validate_experience v)) = true.
Proof.
  destruct v as [x |]; [| reflexivity]. unfold validate_experience.
  destruct (PyFloat.ltb x PyFloat.zero) eqn:H; cbn; [reflexivity |].
  unfold not_negative. now rewrite H.
Qed.

Lemma validate_not_empty_value (v : option string) :
  holds non_blank (value_of (validate_not_empty v)) = true.
Proof.
  destruct v as [s |]; [| reflexivity]. unfold validate_not_empty.
  destruct (PyStr.truthy (PyStr.strip s)) eqn:H; cbn; [| reflexivity].
  exact H.
Qed.

(** A profile that comes out of [model_validate] satisfies the
    constraints the validators check. *)
Lemma model_validate_constraints (E : environment) (d : dict)
    (a : ApplicantInfo) :
  model_validate E d = Return a -> constraints not_negative a = true.
Proof.
  unfold model_validate. intros H.
  destruct (_ ++ _)%list; [| discriminate].
  injection H as <-. unfold constraints. cbn.
  now rewrite validate_name_value, validate_phone_value,
    validate_experience_value, !validate_not_empty_value.
Qed.

Lemma updated_info_constraints (E : environment) (a a' : ApplicantInfo)
    (k : key) (user_input : string) :
  updated_info E a k user_input = Return a' ->
  constraints not_negative a' = true.
Proof.
  unfold updated_info, bind.
  destruct (with_entry (model_dump a) k user_input); [| discriminate].
  apply model_validate_constraints.
Qed.

(* ================================================================== *)
(** * Properties of the generation adapter *)
(* ================================================================== *)

Lemma generate_technical_questions_returns (E : environment) (t : string) :
  exists text, generate_technical_questions E t = Return text.
Proof.
  unfold generate_technical_questions.
  destruct (negb (configured (GOOGLE_API_KEY E))); [eauto |].
  destruct (generate_content E (question_prompt t)); eauto.
Qed.

Lemma generate_technical_questions_fallback (E : environment) (t : string)
    (e : exn) :
  configured (GOOGLE_API_KEY E) = true ->
  generate_content E (question_prompt t) = Raise e ->
  generate_technical_questions E t = Return fallback_message.
Proof.
  intros Hk Hs. unfold generate_technical_questions. now rewrite Hk, Hs.
Qed.

(* ================================================================== *)
(** * The outcomes of the processing step *)
(* ================================================================== *)

Lemma truthy_error_response (e : exn) :
  PyStr.truthy (error_response e) = true.
Proof. destruct e; reflexivity. Qed.

Lemma truthy_prompt (a : ApplicantInfo) :
  PyStr.truthy (fst (get_next_prompt a)) = true.
Proof.
  destruct a as [n e p x po l t].
  destruct n, e, p, x, po, l, t; reflexivity.
Qed.

Lemma key_eqb_generate (k : key) :
  key_eqb k k_generate_questions = true <-> k = k_generate_questions.
Proof. destruct k; cbn; intuition (try discriminate; try congruence). Qed.

Lemma format_acknowledgment (t : string) :
  format_tech_stack acknowledgment_template t = acknowledgment t.
Proof.
  unfold format_tech_stack, acknowledgment, acknowledgment_template.
  cbn. reflexivity.
Qed.

(** What [process_input] leaves, case by case: a termination keyword; no
    pending field; an update that raises; an update that succeeds with a
    field still to ask for; an update that fills the form, after which the
    adapter is called. *)
Lemma process_input_outcome (E : environment) (st : session_state)
    (i : string) :
  (is_termination i = true
   /\ process_input E st i =
      {| messages := messages st ++ [said user i; said assistant farewell_message];
         applicant_info := applicant_info st;
         current_field_to_fill := None;
         conversation_finished := true;
         generation_calls := generation_calls st |})
  \/ (is_termination i = false
      /\ current_field_to_fill st = None
      /\ process_input E st i =
         {| messages := messages st ++ [said user i; said assistant apology_message];
            applicant_info := applicant_info st;
            current_field_to_fill := None;
            conversation_finished := true;
            generation_calls := generation_calls st |})
  \/ (exists k e,
        is_termination i = false
        /\ current_field_to_fill st = Some k
        /\ updated_info E (applicant_info st) k i = Raise e
        /\ process_input E st i =
           {| messages := messages st ++ [said user i; said assistant (error_response e)];
              applicant_info := applicant_info st;
              current_field_to_fill := Some k;
              conversation_finished := conversation_finished st;
              generation_calls := generation_calls st |})
  \/ (exists k a,
        is_termination i = false
        /\ current_field_to_fill st = Some k
        /\ updated_info E (applicant_info st) k i = Return a
        /\ snd (get_next_prompt a) <> k_generate_questions
        /\ process_input E st i =
           {| messages := messages st
                ++ [said user i; said assistant (fst (get_next_prompt a))];
              applicant_info := a;
              current_field_to_fill := Some (snd (get_next_prompt a));
              conversation_finished := conversation_finished st;
              generation_calls := generation_calls st |})
  \/ (exists k a text,
        is_termination i = false
        /\ current_field_to_fill st = Some k
        /\ updated_info E (applicant_info st) k i = Return a
        /\ snd (get_next_prompt a) = k_generate_questions
        /\ generate_technical_questions E (py_str (tech_stack a)) = Return text
        /\ process_input E st i =
           {| messages := messages st
                ++ [said user i;
                    said assistant (acknowledgment (py_str (tech_stack a)));
                    said assistant text;
                    said assistant farewell_message];
              applicant_info := a;
              current_field_to_fill := None;
              conversation_finished := true;
              generation_calls := generation_calls st ++ [py_str (tech_stack a)] |}).
Proof.
  unfold process_input.
  destruct (is_termination i) eqn:Hterm.
  { left. split; [reflexivity |]. cbn. unfold append_message. cbn.
    now rewrite <- app_assoc. }
  right. cbn [current_field_to_fill append_message].
  destruct (current_field_to_fill st) as [k |] eqn:Hk.
  2:{ left. repeat split. cbn. unfold append_message. cbn.
      now rewrite <- app_assoc, Hk. }
  right. unfold try_update. cbn [applicant_info append_message].
  destruct (updated_info E (applicant_info st) k i) as [a | e] eqn:Hup.
  2:{ left. exists k, e. repeat split; try assumption.
      rewrite truthy_error_response.
      unfold append_message. cbn. now rewrite <- app_assoc, Hk. }
  right.
  pose proof (truthy_prompt a) as Htp.
  pose proof (get_next_prompt_table a) as Htable.
  destruct (get_next_prompt a) as [next_prompt next_field] eqn:Hnext.
  cbn [fst snd] in *. subst next_prompt.
  destruct (key_eqb next_field k_generate_questions) eqn:Hgen.
  - right. apply key_eqb_generate in Hgen. subst next_field.
    destruct (generate_technical_questions_returns E (py_str (tech_stack a)))
      as [text Htext].
    exists k, a, text. rewrite Htext. repeat split; try assumption.
    { now rewrite Hnext. }
    change (prompt_of a k_generate_questions) with acknowledgment_template.
    rewrite format_acknowledgment.
    unfold append_message, set_current_field, set_finished, record_call,
      set_applicant_info. cbn.
    now rewrite <- !app_assoc.
  - left. exists k, a. repeat split; try assumption.
    + rewrite Hnext. cbn. intros Habs. apply key_eqb_generate in Habs.
      congruence.
    + rewrite Htp, Hnext. unfold append_message, set_current_field,
        set_applicant_info. cbn. now rewrite <- app_assoc.
Qed.

(* ================================================================== *)
(** * Termination keywords *)
(* ================================================================== *)

Lemma mem_In (x : string) (l : list string) : PyStr.mem x l = true <-> In x l.
Proof.
  unfold PyStr.mem. rewrite existsb_exists. split.
  - intros [y [Hy Heq]]. apply String.eqb_eq in Heq. now subst.
  - intros H. exists x. split; [exact H | apply String.eqb_refl].
Qed.

(** C6. When the lowercased input is one of bye, exit and quit, the
    processing step finishes the conversation, emits the farewell after the
    input, and leaves the profile as it was; no validator and no adapter
    has a say: the pending field is dropped and no generation call is
    made, whatever the state. *)
Theorem termination_keyword_finishes (E : environment) (st : session_state)
    (user_input : string) :
  In (PyStr.lower user_input) termination_keywords ->
  let st' := process_input E st user_input in
  conversation_finished st' = true
  /\ messages st'
     = (messages st
        ++ [said user user_input; said assistant farewell_message])%list
  /\ applicant_info st' = applicant_info st
  /\ current_field_to_fill st' = None
  /\ generation_calls st' = generation_calls st.
Proof.
  intros Hin st'. subst st'.
  assert (Hterm : is_termination user_input = true) by now apply mem_In.
  destruct (process_input_outcome E st user_input)
    as [[_ ->] | [[H _] | [(k & e & H & _) | [(k & a & H & _)
        | (k & a & text & H & _)]]]];
    try congruence.
  repeat split.
Qed.

Lemma termination_keyword_finishes_witness :
  In (PyStr.lower "QuIt") termination_keywords
  /\ conversation_finished after_name = false
  /\ current_field_to_fill after_name = Some k_email
  /\ conversation_finished (process_input Sample.answering after_name "QuIt")
     = true
  /\ applicant_info (process_input Sample.answering after_name "QuIt")
     = applicant_info after_name.
Proof.
  assert (Hin : In (PyStr.lower "QuIt") termination_keywords)
    by (cbn; auto).
  destruct (termination_keyword_finishes Sample.answering after_name "QuIt" Hin)
    as (Hf & _ & Ha & _).
  split; [exact Hin |]. split; [reflexivity |]. split; [reflexivity |].
  split; [exact Hf | exact Ha].
Defined.

(* ================================================================== *)
(** * Failed updates *)
(* ================================================================== *)

Lemma errors_of_raised_text {A : Type} (k : key) (r : result A) :
  errors_of k r =
    match raised_text r with
    | Some text => [ {| loc := k; source := from_validator; reason := text |} ]
    | None => []
    end.
Proof. destruct r as [a | [| |]]; reflexivity. Qed.

Lemma model_validate_raises (E : environment) (d : dict) (e : exn) :
  model_validate E d = Raise e ->
  exists first others,
    e = ValidationError first others
    /\ refusal E d (loc first) = Some (reason first).
Proof.
  unfold model_validate. rewrite !errors_of_raised_text.
  intros H.
  destruct (raised_text (validate_name (d_name d))) eqn:H1.
  { cbn in H. injection H as <-. eexists _, _. split; [reflexivity |].
    cbn. now rewrite H1. }
  cbn [app] in H.
  destruct (snd (email_str E (d_email d))) as [| x xs] eqn:H2.
  2:{ cbn in H. injection H as <-. eexists _, _. split; [reflexivity |].
      unfold email_str in H2. destruct (d_email d) as [s |] eqn:Hs;
        [| discriminate].
      destruct (email_validator E s) as [why | n] eqn:Hv; [| discriminate].
      cbn in H2. injection H2 as <- <-. cbn. now rewrite Hs, Hv. }
  cbn [app] in H.
  destruct (raised_text (validate_phone (d_phone d))) eqn:H3.
  { cbn in H. injection H as <-. eexists _, _. split; [reflexivity |].
    cbn. now rewrite H3. }
  cbn [app] in H.
  destruct (raised_text (validate_experience (d_experience d))) eqn:H4.
  { cbn in H. injection H as <-. eexists _, _. split; [reflexivity |].
    cbn. now rewrite H4. }
  cbn [app] in H.
  destruct (raised_text (validate_not_empty (d_position d))) eqn:H5.
  { cbn in H. injection H as <-. eexists _, _. split; [reflexivity |].
    cbn. now rewrite H5. }
  cbn [app] in H.
  destruct (raised_text (validate_not_empty (d_location d))) eqn:H6.
  { cbn in H. injection H as <-. eexists _, _. split; [reflexivity |].
    cbn. now rewrite H6. }
  cbn [app] in H.
  destruct (raised_text (validate_not_empty (d_tech_stack d))) eqn:H7.
  { cbn in H. injection H as <-. eexists _, _. split; [reflexivity |].
    cbn. now rewrite H7. }
  discriminate.
Qed.

Lemma with_entry_raises (d : dict) (k : key) (user_input : string) (e : exn) :
  with_entry d k user_input = Raise e ->
  k = k_experience /\ py_float user_input = Raise e
  /\ e = ValueError ("could not convert string to float: "
                     ++ PyStr.repr user_input).
Proof.
  destruct k; cbn; try discriminate.
  unfold py_float. destruct (PyFloat.of_string user_input); cbn;
    [discriminate |].
  intros [= <-]. repeat split.
Qed.

(** An update raises in one of two ways: the input is no number, for the
    experience; or a validator refuses an entry. *)
Lemma updated_info_raises (E : environment) (a : ApplicantInfo) (k : key)
    (user_input : string) (e : exn) :
  updated_info E a k user_input = Raise e ->
  (k = k_experience /\ py_float user_input = Raise e
   /\ e = ValueError ("could not convert string to float: "
                      ++ PyStr.repr user_input))
  \/ (exists temp_data first others,
        with_entry (model_dump a) k user_input = Return temp_data
        /\ e = ValidationError first others
        /\ refusal E temp_data (loc first) = Some (reason first)).
Proof.
  unfold updated_info, bind.
  destruct (with_entry (model_dump a) k user_input) as [d | e'] eqn:Hw.
  - intros H. right. destruct (model_validate_raises E d e H)
      as (first & others & -> & Hr).
    now exists d, first, others.
  - intros [= <-]. left. now apply (with_entry_raises _ _ _ _ Hw).
Qed.

Lemma error_response_embeds (e : exn) :
  exists before after,
    error_response e = before ++ raised_reason e ++ after.
Proof.
  destruct e as [first others | text | text]; cbn.
  - destruct first as [l [] r]; unfold msg; cbn [source reason].
    + exists "Validation Error: Value error, ", ". Please try again.".
      reflexivity.
    + exists "Validation Error: value is not a valid email address: ",
        ". Please try again.".
      reflexivity.
  - exists "Input Error: ", ". Please try again.". reflexivity.
  - exists "An unexpected error occurred: ", ". Please try again.".
    reflexivity.
Qed.

(** C3. In a session that is collecting, with field [k] pending, when the
    input is no termination keyword and the update raises (the validation
    fails), the processing step leaves the profile, the pending field and
    the status as they were ([conversation_finished] stays false), and it
    emits one assistant message after the input, which embeds the reason
    of the failure: the reason the validator of the refused field gave, or
    the text of the float conversion error. *)
Theorem failed_validation_keeps_state (E : environment) (st : session_state)
    (k : key) (user_input : string) (e : exn) :
  conversation_finished st = false ->
  current_field_to_fill st = Some k ->
  is_termination user_input = false ->
  updated_info E (applicant_info st) k user_input = Raise e ->
  let st' := process_input E st user_input in
  applicant_info st' = applicant_info st
  /\ current_field_to_fill st' = Some k
  /\ conversation_finished st' = false
  /\ generation_calls st' = generation_calls st
  /\ messages st'
     = (messages st
        ++ [said user user_input; said assistant (error_response e)])%list
  /\ (exists before after,
        error_response e = before ++ raised_reason e ++ after)
  /\ ((k = k_experience /\ py_float user_input = Raise e)
      \/ (exists temp_data first others,
            with_entry (model_dump (applicant_info st)) k user_input
            = Return temp_data
            /\ e = ValidationError first others
            /\ refusal E temp_data (loc first) = Some (raised_reason e))).
Proof.
  intros Hfin Hk Hterm Hup st'. subst st'.
  destruct (process_input_outcome E st user_input)
    as [[H _] | [(_ & H & _) | [(k' & e' & _ & Hk' & Hup' & ->)
        | [(k' & a & _ & Hk' & Hup' & _)
        | (k' & a & text & _ & Hk' & Hup' & _)]]]];
    try congruence.
  assert (k' = k) by congruence. subst k'.
  assert (e' = e) by congruence. subst e'.
  cbn. repeat split; try assumption.
  - apply error_response_embeds.
  - destruct (updated_info_raises E _ _ _ _ Hup)
      as [(Hke & Hpf & _) | (d & first & others & Hw & -> & Hr)].
    + left. now split.
    + right. now exists d, first, others.
Qed.

Lemma failed_validation_keeps_state_witness :
  let st := after_name in
  let e :=
    ValidationError
      {| loc := k_email; source := from_email_str;
         reason := "An email address must have an @-sign." |} [] in
  conversation_finished st = false
  /\ current_field_to_fill st = Some k_email
  /\ updated_info Sample.answering (applicant_info st) k_email "jane" = Raise e
  /\ applicant_info (process_input Sample.answering st "jane")
     = applicant_info st
  /\ current_field_to_fill (process_input Sample.answering st "jane")
     = Some k_email
  /\ conversation_finished (process_input Sample.answering st "jane") = false.
Proof.
  cbv zeta.
  destruct (failed_validation_keeps_state Sample.answering after_name k_email
              "jane"
              (ValidationError
                 {| loc := k_email; source := from_email_str;
                    reason := "An email address must have an @-sign." |} [])
              eq_refl eq_refl eq_refl eq_refl)
    as (Ha & Hk & Hf & _).
  split; [reflexivity |]. split; [reflexivity |]. split; [reflexivity |].
  split; [exact Ha |]. split; [exact Hk | exact Hf].
Defined.

(* ================================================================== *)
(** * White space around a termination keyword *)
(* ================================================================== *)

Lemma lower_char_space (c : ascii) :
  PyStr.isspace c = true -> PyStr.lower_char c = c.
Proof.
  destruct c as [[] [] [] [] [] [] [] []]; intros H;
    first [discriminate H | reflexivity].
Qed.

Lemma first_char_lower (s : string) :
  PyStr.first_char (PyStr.lower s)
  = option_map PyStr.lower_char (PyStr.first_char s).
Proof. destruct s; reflexivity. Qed.

Lemma last_char_lower (s : string) :
  PyStr.last_char (PyStr.lower s)
  = option_map PyStr.lower_char (PyStr.last_char s).
Proof.
  induction s as [| c s IH]; [reflexivity |].
  destruct s as [| c' s']; [reflexivity |].
  exact IH.
Qed.

Lemma space_at_an_end_not_termination (s : string) :
  space_at_an_end s -> is_termination s = false.
Proof.
  intros (c & Hc & Hsp).
  destruct (is_termination s) eqn:Hterm; [exfalso | reflexivity].
  apply mem_In in Hterm.
  pose proof (first_char_lower s) as Hf.
  pose proof (last_char_lower s) as Hl.
  pose proof (lower_char_space c Hsp) as Hlow.
  destruct Hc as [Hc | Hc].
  - rewrite Hc in Hf. cbn in Hf. rewrite Hlow in Hf.
    cbn in Hterm. destruct Hterm as [H | [H | [H | []]]];
      rewrite <- H in Hf; cbn in Hf; injection Hf as <-; discriminate Hsp.
  - rewrite Hc in Hl. cbn in Hl. rewrite Hlow in Hl.
    cbn in Hterm. destruct Hterm as [H | [H | [H | []]]];
      rewrite <- H in Hl; cbn in Hl; injection Hl as <-; discriminate Hsp.
Qed.

Lemma last_char_append (x r : string) :
  r <> EmptyString -> PyStr.last_char (x ++ r) = PyStr.last_char r.
Proof.
  intros Hr. induction x as [| c x IH]; [reflexivity |].
  cbn [append]. destruct (x ++ r) as [| c' s'] eqn:Hx.
  - destruct x; [cbn in Hx; congruence | discriminate].
  - exact IH.
Qed.

Lemma last_char_all (p : ascii -> bool) (r : string) :
  r <> EmptyString -> PyStr.all p r = true ->
  exists c, PyStr.last_char r = Some c /\ p c = true.
Proof.
  unfold PyStr.all, PyStr.chars.
  induction r as [| c r IH]; [congruence |].
  intros _ H. cbn in H. apply andb_prop in H as [Hc Hr].
  destruct r as [| c' r'].
  - exists c. now split.
  - destruct IH as (x & Hx & Hp); [discriminate | exact Hr |].
    exists x. now split.
Qed.

Lemma padded_keyword_space (s : string) :
  padded_keyword s -> space_at_an_end s.
Proof.
  intros (l & w & r & -> & Hl & Hr & Hne & _).
  destruct l as [| c l'].
  - destruct Hne as [Hne | Hne]; [congruence |].
    destruct (last_char_all _ r Hne Hr) as (c & Hc & Hp).
    exists c. split; [right | exact Hp].
    cbn [append]. now rewrite last_char_append.
  - exists c. split; [left; reflexivity |].
    unfold PyStr.all, PyStr.chars in Hl. cbn in Hl.
    now apply andb_prop in Hl as [Hc _].
Qed.

(** C9, as the code has it. Matching lowercases the input and does not
    trim it: an input made of a termination keyword with white space
    before or after it is no termination keyword. With field [k] pending
    the raw input, white space included, goes to validation for [k]: when
    the update raises, the session stays as it was, with the error message
    added; when it succeeds, the profile is the updated one, and the
    conversation is finished after the step exactly when it was before or
    the update filled the form (the pending field was the last one). *)
Theorem padded_keyword_is_validated (E : environment) (st : session_state)
    (k : key) (user_input : string) :
  padded_keyword user_input ->
  current_field_to_fill st = Some k ->
  let st' := process_input E st user_input in
  is_termination user_input = false
  /\ match updated_info E (applicant_info st) k user_input with
     | Raise e =>
         applicant_info st' = applicant_info st
         /\ current_field_to_fill st' = Some k
         /\ conversation_finished st' = conversation_finished st
         /\ messages st'
            = (messages st
               ++ [said user user_input; said assistant (error_response e)])%list
     | Return a =>
         applicant_info st' = a
         /\ (conversation_finished st' = true
             <-> conversation_finished st = true
                 \/ snd (get_next_prompt a) = k_generate_questions)
     end.
Proof.
  intros Hpad Hk st'. subst st'.
  pose proof (space_at_an_end_not_termination _ (padded_keyword_space _ Hpad))
    as Hterm.
  split; [exact Hterm |].
  destruct (process_input_outcome E st user_input)
    as [[H _] | [(_ & H & _) | [(k' & e' & _ & Hk' & Hup' & ->)
        | [(k' & a & _ & Hk' & Hup' & Hn & ->)
        | (k' & a & text & _ & Hk' & Hup' & Hn & _ & ->)]]]];
    try congruence;
    (assert (k' = k) by congruence); subst k'; rewrite Hup'; cbn.
  - repeat split.
  - split; [reflexivity |]. split; [auto |]. intros [H | H]; congruence.
  - split; [reflexivity |]. split; auto.
Qed.

Lemma padded_keyword_is_validated_witness :
  padded_keyword " quit"
  /\ current_field_to_fill after_name = Some k_email
  /\ is_termination " quit" = false
  /\ conversation_finished (process_input Sample.answering after_name " quit")
     = conversation_finished after_name.
Proof.
  assert (Hpad : padded_keyword " quit").
  { exists " ", "quit", "". repeat split. left. discriminate. }
  destruct (padded_keyword_is_validated Sample.answering after_name k_email
              " quit" Hpad eq_refl) as [Ht Hm].
  split; [exact Hpad |]. split; [reflexivity |]. split; [exact Ht |].
  cbv zeta in Hm.
  change (updated_info Sample.answering (applicant_info after_name) k_email
            " quit")
    with (@Raise ApplicantInfo
            (ValidationError
               {| loc := k_email; source := from_email_str;
                  reason := "An email address must have an @-sign." |} []))
    in Hm.
  now destruct Hm as (_ & _ & Hf & _).
Defined.

(** C9, as the claim states it, fails: with the tech stack pending, the
    input made of a blank and quit is taken as the tech stack, the form is
    full, and the conversation is finished by that step. *)
Lemma padded_keyword_finishes_session :
  let st := before_tech_stack Sample.answering in
  conversation_finished st = false
  /\ current_field_to_fill st = Some k_tech_stack
  /\ padded_keyword " quit"
  /\ conversation_finished (process_input Sample.answering st " quit") = true
  /\ tech_stack (applicant_info (process_input Sample.answering st " quit"))
     = Some " quit"
  /\ generation_calls (process_input Sample.answering st " quit") = [" quit"].
Proof.
  cbv zeta. repeat split.
  exists " ", "quit", "". repeat split. left. discriminate.
Qed.

(** C5. The generation adapter always returns: it raises nothing past its
    boundary. With the API key configured, whenever the service call fails
    (whatever it raises) the adapter returns exactly the fallback text;
    and when that happens in the step that fills the form, the step still
    finishes the conversation, with the fallback as the message between
    the acknowledgment and the farewell. *)
Theorem generation_adapter_absorbs_failures (E : environment) (t : string) :
  (exists text, generate_technical_questions E t = Return text)
  /\ (forall e,
        configured (GOOGLE_API_KEY E) = true ->
        generate_content E (question_prompt t) = Raise e ->
        generate_technical_questions E t = Return fallback_message)
  /\ (forall st k user_input a e,
        current_field_to_fill st = Some k ->
        is_termination user_input = false ->
        updated_info E (applicant_info st) k user_input = Return a ->
        snd (get_next_prompt a) = k_generate_questions ->
        tech_stack a = Some t ->
        configured (GOOGLE_API_KEY E) = true ->
        generate_content E (question_prompt t) = Raise e ->
        let st' := process_input E st user_input in
        conversation_finished st' = true
        /\ applicant_info st' = a
        /\ messages st'
           = (messages st
              ++ [said user user_input;
                  said assistant (acknowledgment t);
                  said assistant fallback_message;
                  said assistant farewell_message])%list).
Proof.
  split; [apply generate_technical_questions_returns |].
  split; [intros e; apply generate_technical_questions_fallback |].
  intros st k user_input a e Hk Hterm Hup Hgen Htech Hkey Hfail st'.
  subst st'.
  destruct (process_input_outcome E st user_input)
    as [[H _] | [(_ & H & _) | [(k' & e' & _ & Hk' & Hup' & _)
        | [(k' & a' & _ & Hk' & Hup' & Hn & _)
        | (k' & a' & text & _ & Hk' & Hup' & Hn & Htext & ->)]]]];
    try congruence.
  assert (a' = a) by congruence. subst a'.
  rewrite Htech in Htext |- *. cbn [py_str] in Htext |- *.
  rewrite (generate_technical_questions_fallback E t e Hkey Hfail) in Htext.
  injection Htext as <-. cbn. repeat split.
Qed.

Lemma generation_adapter_absorbs_failures_witness :
  let st := before_tech_stack Sample.failing in
  generate_technical_questions Sample.failing "Python, PostgreSQL"
  = Return fallback_message
  /\ conversation_finished (process_input Sample.failing st "Python, PostgreSQL")
     = true
  /\ messages (process_input Sample.failing st "Python, PostgreSQL")
     = (messages st
        ++ [said user "Python, PostgreSQL";
            said assistant (acknowledgment "Python, PostgreSQL");
            said assistant fallback_message;
            said assistant farewell_message])%list.
Proof.
  cbv zeta.
  destruct (generation_adapter_absorbs_failures Sample.failing
              "Python, PostgreSQL") as (_ & Hfall & Hstep).
  split.
  - exact (Hfall (Exception "503 Service Unavailable") eq_refl eq_refl).
  - destruct (Hstep (before_tech_stack Sample.failing) k_tech_stack
                "Python, PostgreSQL"
                (applicant_info
                   (process_input Sample.failing
                      (before_tech_stack Sample.failing)
                      "Python, PostgreSQL"))
                (Exception "503 Service Unavailable")
                eq_refl eq_refl eq_refl eq_refl eq_refl eq_refl eq_refl)
      as (Hf & _ & Hm).
    split; [exact Hf | exact Hm].
Defined.

(* ================================================================== *)
(** * Sessions: what every run preserves *)
(* ================================================================== *)

Lemma run_snoc (E : environment) (inputs : list (option string))
    (i : option string) :
  run E (inputs ++ [i]) = script_run E (run E inputs) i.
Proof. unfold run. now rewrite fold_left_app. Qed.

(** A property of the fresh session that every script run preserves holds
    after every sequence of runs. *)
Lemma run_invariant (E : environment) (P : session_state -> Prop) :
  P fresh_session ->
  (forall st i, P st -> P (script_run E st i)) ->
  forall inputs, P (run E inputs).
Proof.
  intros H0 Hstep inputs.
  induction inputs as [| i inputs IH] using rev_ind; [exact H0 |].
  rewrite run_snoc. now apply Hstep.
Qed.

Lemma first_prompt_frame (st : session_state) :
  applicant_info (first_prompt st) = applicant_info st
  /\ conversation_finished (first_prompt st) = conversation_finished st
  /\ generation_calls (first_prompt st) = generation_calls st
  /\ messages (first_prompt st) <> []
  /\ (messages st <> [] -> first_prompt st = st)
  /\ (messages st = [] ->
      current_field_to_fill (first_prompt st)
      = Some (snd (get_next_prompt (applicant_info st)))).
Proof.
  unfold first_prompt.
  destruct (messages st) as [| m l] eqn:Hm.
  - destruct (get_next_prompt (applicant_info st)) as [p k]. cbn.
    rewrite Hm. repeat split; try discriminate. congruence.
  - rewrite Hm. repeat split; try discriminate; congruence.
Qed.

(** A script run leaves the profile as it was, or replaces it by the
    outcome of a successful update. *)
Lemma script_run_profile (E : environment) (st : session_state)
    (i : option string) :
  applicant_info (script_run E st i) = applicant_info st
  \/ exists k text,
       updated_info E (applicant_info st) k text
       = Return (applicant_info (script_run E st i)).
Proof.
  unfold script_run.
  destruct (negb (configured (GOOGLE_API_KEY E))); [now left |].
  destruct (first_prompt_frame st) as (Ha & _).
  destruct (negb (conversation_finished (first_prompt st))); [| now left].
  destruct i as [text |]; [| now left].
  destruct (PyStr.truthy text); [| now left].
  rewrite <- Ha.
  destruct (process_input_outcome E (first_prompt st) text)
    as [[_ ->] | [(_ & _ & ->) | [(k & e & _ & _ & _ & ->)
        | [(k & a & _ & _ & Hup & _ & ->)
        | (k & a & t & _ & _ & Hup & _ & _ & ->)]]]];
    cbn; try (now left); right; now exists k, text.
Qed.

Lemma not_negative_spec (x : PyFloat.float) :
  not_negative x = true <-> at_least_zero x = true \/ x = PyFloat.nan.
Proof.
  unfold not_negative, at_least_zero, PyFloat.ltb, PyFloat.leb, PyFloat.zero,
    PyFloat.nan.
  destruct x as [[] | [] | | [] m e]; cbn;
    intuition (try discriminate; try congruence).
Qed.

(** C2, as the code has it. After every sequence of script runs from the
    fresh session, each populated field of the profile satisfies what its
    validator checks: the name is not blank after trimming and made of
    alphabetic and white-space characters; the phone has exactly 10
    characters, each a digit in the sense of [str.isdigit], which for a
    phone of ASCII characters means 10 decimal digits; the experience is
    not below zero, which means at least zero or NaN; position, location
    and tech stack are not blank after trimming. So the constraints hold
    in the words of the data model whenever the phone is ASCII text and
    the experience is not NaN. *)
Theorem profile_holds_validated_values (E : environment)
    (inputs : list (option string)) :
  constraints not_negative (applicant_info (run E inputs)) = true
  /\ (forall x,
        experience (applicant_info (run E inputs)) = Some x ->
        at_least_zero x = true \/ x = PyFloat.nan)
  /\ (forall s,
        phone (applicant_info (run E inputs)) = Some s ->
        PyStr.len s = 10%nat
        /\ PyStr.all PyStr.isdigit_char s = true
        /\ (is_ascii s = true -> phone_decimal s = true))
  /\ (holds is_ascii (phone (applicant_info (run E inputs))) = true ->
      experience (applicant_info (run E inputs)) <> Some PyFloat.nan ->
      constraints_as_worded (applicant_info (run E inputs)) = true).
Proof.
  assert (H : constraints not_negative (applicant_info (run E inputs)) = true).
  { apply (run_invariant E
             (fun st => constraints not_negative (applicant_info st) = true));
      [reflexivity |].
    intros st i Hst.
    destruct (script_run_profile E st i) as [-> | (k & text & Hup)];
      [exact Hst |].
    exact (updated_info_constraints E _ _ _ _ Hup). }
  split; [exact H |].
  unfold constraints in H.
  apply andb_prop in H as [H H6]. apply andb_prop in H as [H H5].
  apply andb_prop in H as [H H4]. apply andb_prop in H as [H H3].
  apply andb_prop in H as [H1 H2].
  assert (Hx : forall x,
             experience (applicant_info (run E inputs)) = Some x ->
             at_least_zero x = true \/ x = PyFloat.nan).
  { intros x Hx. apply not_negative_spec. now rewrite Hx in H3. }
  assert (Hp : forall s,
             phone (applicant_info (run E inputs)) = Some s ->
             PyStr.len s = 10%nat
             /\ PyStr.all PyStr.isdigit_char s = true
             /\ (is_ascii s = true -> phone_decimal s = true)).
  { intros s Hs. rewrite Hs in H2. cbn [holds] in H2. unfold phone_ok in H2.
    apply andb_prop in H2 as [Hl Hd]. apply Nat.eqb_eq in Hl.
    split; [exact Hl |]. split; [exact Hd |].
    intros Ha. unfold phone_decimal.
    now rewrite <- (all_isdigit_ascii s Ha), Hd, Hl. }
  split; [exact Hx |]. split; [exact Hp |].
  intros Hascii Hnan. unfold constraints_as_worded.
  rewrite H1, H4, H5, H6.
  assert (P : holds phone_decimal (phone (applicant_info (run E inputs)))
              = true).
  { destruct (phone (applicant_info (run E inputs))) as [s |] eqn:Hs;
      [| reflexivity].
    cbn [holds] in *. now apply (Hp s eq_refl). }
  assert (X : holds at_least_zero
                (experience (applicant_info (run E inputs))) = true).
  { destruct (experience (applicant_info (run E inputs))) as [x |] eqn:Hxx;
      [| reflexivity].
    cbn [holds]. destruct (Hx x eq_refl) as [Hz | ->]; [exact Hz |].
    now elim Hnan. }
  now rewrite P, X.
Qed.

(** C2, as the claim states it, fails in two ways. After a name and an
    e-mail address, ten superscript twos are stored as the phone, and none
    of them is a decimal digit. After a name, an e-mail address and a
    phone of ten decimal digits, the input nan is stored as the
    experience, and NaN is not at least zero. Each run leaves a profile
    that breaks the constraints in the words of the data model. *)
Lemma profile_holds_superscripts_and_nan :
  (phone (applicant_info (run Sample.answering superscript_phone_run))
   = Some superscript_twos
   /\ PyStr.all PyStr.is_decimal_digit superscript_twos = false
   /\ experience (applicant_info (run Sample.answering superscript_phone_run))
      = None
   /\ constraints_as_worded
        (applicant_info (run Sample.answering superscript_phone_run))
      = false)
  /\ (experience (applicant_info (run Sample.answering nan_experience_run))
      = Some PyFloat.nan
      /\ at_least_zero PyFloat.nan = false
      /\ phone_decimal "9876543210" = true
      /\ constraints_as_worded
           (applicant_info (run Sample.answering nan_experience_run))
         = false).
Proof. repeat split. Qed.

(* ================================================================== *)
(** * Which fields an update populates *)
(* ================================================================== *)

Lemma validate_name_shape (v : option string) :
  errors_of k_name (validate_name v) = [] ->
  is_some (value_of (validate_name v)) = is_some v.
Proof.
  destruct v as [s |]; [| reflexivity]. unfold validate_name.
  destruct (_ || _); cbn; [discriminate | reflexivity].
Qed.

Lemma validate_phone_shape (v : option string) :
  errors_of k_phone (validate_phone v) = [] ->
  is_some (value_of (validate_phone v)) = is_some v.
Proof.
  destruct v as [s |]; [| reflexivity]. unfold validate_phone.
  destruct (_ || _); cbn; [discriminate | reflexivity].
Qed.

Lemma validate_experience_shape (v : option PyFloat.float) :
  errors_of k_experience (validate_experience v) = [] ->
  is_some (value_of (validate_experience v)) = is_some v.
Proof.
  destruct v as [x |]; [| reflexivity]. unfold validate_experience.
  destruct (PyFloat.ltb x PyFloat.zero); cbn; [discriminate | reflexivity].
Qed.

Lemma validate_not_empty_shape (k : key) (v : option string) :
  errors_of k (validate_not_empty v) = [] ->
  is_some (value_of (validate_not_empty v)) = is_some v.
Proof.
  destruct v as [s |]; [| reflexivity]. unfold validate_not_empty.
  destruct (negb _); cbn; [discriminate | reflexivity].
Qed.

Lemma email_str_shape (E : environment) (v : option string) :
  snd (email_str E v) = [] -> is_some (fst (email_str E v)) = is_some v.
Proof.
  destruct v as [s |]; [| reflexivity]. unfold email_str.
  destruct (email_validator E s); cbn; [discriminate | reflexivity].
Qed.

(** [model_validate] populates the fields the dictionary has entries for. *)
Lemma model_validate_shape (E : environment) (d : dict) (a : ApplicantInfo) :
  model_validate E d = Return a ->
  map (populated a) collecting_order = entries d.
Proof.
  unfold model_validate. intros H.
  destruct (_ ++ _)%list eqn:Herr; [| discriminate].
  injection H as <-.
  apply app_eq_nil in Herr as [H Herr].
  apply app_eq_nil in Herr as [H0 Herr].
  apply app_eq_nil in Herr as [H1 Herr].
  apply app_eq_nil in Herr as [H2 Herr].
  apply app_eq_nil in Herr as [H3 Herr].
  apply app_eq_nil in Herr as [H4 Herr].
  unfold entries. cbn.
  rewrite (validate_name_shape _ H), (email_str_shape _ _ H0),
    (validate_phone_shape _ H1), (validate_experience_shape _ H2),
    (validate_not_empty_shape _ _ H3), (validate_not_empty_shape _ _ H4),
    (validate_not_empty_shape _ _ Herr).
  reflexivity.
Qed.

Lemma updated_info_shape (E : environment) (a0 a : ApplicantInfo) (k : key)
    (user_input : string) :
  updated_info E a0 k user_input = Return a ->
  map (populated a) collecting_order
  = with_flag k (map (populated a0) collecting_order).
Proof.
  unfold updated_info, bind.
  destruct (with_entry (model_dump a0) k user_input) as [d | e] eqn:Hw;
    [| discriminate].
  intros H. rewrite (model_validate_shape E d a H).
  destruct k; cbn in Hw;
    try (injection Hw as <-; reflexivity).
  destruct (py_float user_input); cbn in Hw; [| discriminate].
  injection Hw as <-. reflexivity.
Qed.

Lemma get_next_prompt_target (a : ApplicantInfo) :
  snd (get_next_prompt a) = target_of (map (populated a) collecting_order).
Proof.
  destruct a as [n e p x po l t].
  destruct n, e, p, x, po, l, t; reflexivity.
Qed.

Lemma entries_model_dump (a : ApplicantInfo) :
  entries (model_dump a) = map (populated a) collecting_order.
Proof. reflexivity. Qed.

(** Setting the field the sequencer asks for, in a profile with no tech
    stack: the form is full after that exactly when the field was the tech
    stack; otherwise the tech stack is still absent. *)
Lemma with_flag_target (flags : list bool) :
  length flags = 7%nat ->
  nth 6 flags false = false ->
  let flags' := with_flag (target_of flags) flags in
  (target_of flags' = k_generate_questions
   /\ forallb (fun b => b) flags' = true
   /\ nth 6 flags' false = true)
  \/ (target_of flags' <> k_generate_questions
      /\ nth 6 flags' false = false).
Proof.
  intros Hlen Hlast.
  do 7 (destruct flags as [| ? flags]; [discriminate Hlen |]).
  destruct flags; [| discriminate Hlen].
  cbn in Hlast. subst.
  repeat match goal with b : bool |- _ => destruct b end; cbn;
    first [ left; repeat split; reflexivity
          | right; split; [discriminate | reflexivity] ].
Qed.

(* ================================================================== *)
(** * The generation call *)
(* ================================================================== *)

Lemma tech_stack_flag (a : ApplicantInfo) :
  nth 6 (map (populated a) collecting_order) false = is_some (tech_stack a).
Proof. reflexivity. Qed.

Lemma process_input_generation (E : environment) (st : session_state)
    (text : string) :
  conversation_finished st = false ->
  generation_calls st = [] ->
  tech_stack (applicant_info st) = None ->
  current_field_to_fill st
  = Some (snd (get_next_prompt (applicant_info st))) ->
  let st' := process_input E st text in
  session_inv st' /\ (quiet_step st st' \/ generating_step st st').
Proof.
  intros Hfin Hcalls Htech Hcur st'. subst st'.
  destruct (process_input_outcome E st text)
    as [[_ ->] | [(_ & _ & ->) | [(k & e & _ & Hk & _ & ->)
        | [(k & a & _ & Hk & Hup & Hn & ->)
        | (k & a & t & _ & Hk & Hup & Hn & _ & ->)]]]].
  - split; [| left; now split].
    split; [cbn; rewrite Hcalls; cbn; lia | intros H; discriminate H].
  - split; [| left; now split].
    split; [cbn; rewrite Hcalls; cbn; lia | intros H; discriminate H].
  - split; [| left; now split].
    split; [cbn; rewrite Hcalls; cbn; lia |].
    intros _. cbn. repeat split; try assumption. intros _. congruence.
  - assert (Hkt : k = target_of (map (populated (applicant_info st))
                                  collecting_order)).
    { rewrite <- get_next_prompt_target. congruence. }
    pose proof (updated_info_shape E _ _ _ _ Hup) as Hshape.
    rewrite Hkt in Hshape.
    destruct (with_flag_target (map (populated (applicant_info st))
                                  collecting_order))
      as [(Hg & _) | (_ & Hlast)];
      [reflexivity | now rewrite tech_stack_flag, Htech | |].
    { rewrite <- Hshape, <- get_next_prompt_target in Hg. contradiction. }
    rewrite <- Hshape, tech_stack_flag in Hlast.
    apply is_some_false in Hlast.
    split.
    + split; [cbn; rewrite Hcalls; cbn; lia |].
      intros _. cbn. repeat split; assumption.
    + left. split; [reflexivity |]. cbn. congruence.
  - assert (Hkt : k = target_of (map (populated (applicant_info st))
                                  collecting_order)).
    { rewrite <- get_next_prompt_target. congruence. }
    pose proof (updated_info_shape E _ _ _ _ Hup) as Hshape.
    rewrite Hkt in Hshape.
    destruct (with_flag_target (map (populated (applicant_info st))
                                  collecting_order))
      as [(_ & Hall & Hlast) | (Hg & _)];
      [reflexivity | now rewrite tech_stack_flag, Htech | |].
    2:{ rewrite <- Hshape, <- get_next_prompt_target in Hg. contradiction. }
    rewrite <- Hshape in Hall, Hlast. rewrite tech_stack_flag in Hlast.
    apply is_some_true in Hlast as [v Hv].
    split.
    + split; [cbn; rewrite Hcalls; cbn; lia | intros H; discriminate H].
    + right. exists v. cbn. rewrite Hcalls, Hv. repeat split; try assumption.
      cbn in Hall. now rewrite Hv in Hall.
Qed.

Lemma script_run_generation (E : environment) (st : session_state)
    (i : option string) :
  session_inv st ->
  session_inv (script_run E st i)
  /\ (quiet_step st (script_run E st i)
      \/ generating_step st (script_run E st i)).
Proof.
  intros Hinv. pose proof Hinv as [Hlen Hcoll].
  unfold script_run.
  destruct (negb (configured (GOOGLE_API_KEY E)));
    [split; [exact Hinv | left; now split] |].
  destruct (first_prompt_frame st) as (Ha & Hf & Hc & Hm & Hsame & Hfirst).
  assert (Hinv1 : session_inv (first_prompt st)).
  { split; [now rewrite Hc |]. intros Hopen. rewrite Hf in Hopen.
    destruct (Hcoll Hopen) as (H1 & H2 & H3).
    rewrite Hc, Ha. repeat split; try assumption. intros _.
    destruct (messages st) as [| m l] eqn:Hms.
    - now apply Hfirst.
    - rewrite Hsame by discriminate. apply H3. discriminate. }
  assert (Hquiet1 : quiet_step st (first_prompt st))
    by (split; congruence).
  destruct (conversation_finished (first_prompt st)) eqn:Hfin; cbn [negb];
    [split; [exact Hinv1 | left; exact Hquiet1] |].
  destruct i as [text |]; [| split; [exact Hinv1 | left; exact Hquiet1]].
  destruct (PyStr.truthy text);
    [| split; [exact Hinv1 | left; exact Hquiet1]].
  destruct Hinv1 as [_ Hcoll1]. destruct (Hcoll1 Hfin) as (H1 & H2 & H3).
  destruct (process_input_generation E (first_prompt st) text Hfin H1 H2
              (H3 Hm)) as [Hinv' Hstep].
  split; [exact Hinv' |].
  destruct Hstep as [[Hq1 Hq2] | (t & G1 & G2 & G3 & G4 & G5 & G6 & G7)].
  - left. split; congruence.
  - right. exists t. repeat split; try assumption; congruence.
Qed.

Lemma run_session_inv (E : environment) (inputs : list (option string)) :
  session_inv (run E inputs).
Proof.
  apply run_invariant.
  - split; [cbn; lia |]. intros _. repeat split. intros H. now elim H.
  - intros st i H. now apply script_run_generation.
Qed.

(** Scenario A, with the sample collaborators: the seven answers leave
    the conversation finished after one call with the tech stack given,
    and the export holds the seven values. *)
Example scenario_A :
  let st :=
    run Sample.answering
      (Sample.six_answers ++ [Some "Python, PostgreSQL"]) in
  conversation_finished st = true
  /\ generation_calls st = ["Python, PostgreSQL"]
  /\ final_export st
     = {| d_name := Some "Jane Doe"; d_email := Some "jane@x.com";
          d_phone := Some "9876543210";
          d_experience := PyFloat.of_string "2";
          d_position := Some "Backend Engineer";
          d_location := Some "Berlin";
          d_tech_stack := Some "Python, PostgreSQL" |}.
Proof. cbv zeta. repeat split. Qed.

(* ================================================================== *)
(** * Updates of the experience *)
(* ================================================================== *)

Lemma updated_info_experience (E : environment) (a : ApplicantInfo)
    (user_input : string) :
  updated_info E a k_experience user_input =
    match py_float user_input with
    | Raise e => Raise e
    | Return x =>
        model_validate E
          {| d_name := name a; d_email := email a; d_phone := phone a;
             d_experience := Some x; d_position := position a;
             d_location := location a; d_tech_stack := tech_stack a |}
    end.
Proof.
  unfold updated_info, bind. cbn [with_entry bind model_dump].
  unfold bind. destruct (py_float user_input); reflexivity.
Qed.

(** A number below zero is refused by a [ValidationError]. *)
Lemma negative_experience_refused (E : environment) (a : ApplicantInfo)
    (x : PyFloat.float) :
  PyFloat.ltb x PyFloat.zero = true ->
  exists first others,
    model_validate E
      {| d_name := name a; d_email := email a; d_phone := phone a;
         d_experience := Some x; d_position := position a;
         d_location := location a; d_tech_stack := tech_stack a |}
    = Raise (ValidationError first others).
Proof.
  intros Hneg. unfold model_validate. cbn [d_experience validate_experience].
  rewrite Hneg. cbn [errors_of].
  destruct (_ ++ _)%list as [| d ds] eqn:Herr; [| eauto].
  apply app_eq_nil in Herr as [_ Herr].
  apply app_eq_nil in Herr as [_ Herr].
  apply app_eq_nil in Herr as [_ Herr].
  apply app_eq_nil in Herr as [Herr _].
  discriminate Herr.
Qed.

(** In a stable profile the only error a negative number meets is the one
    of the experience validator. *)
Lemma negative_experience_reason (E : environment) (a : ApplicantInfo)
    (x : PyFloat.float) :
  stable E a ->
  PyFloat.ltb x PyFloat.zero = true ->
  model_validate E
    {| d_name := name a; d_email := email a; d_phone := phone a;
       d_experience := Some x; d_position := position a;
       d_location := location a; d_tech_stack := tech_stack a |}
  = Raise (ValidationError
             {| loc := k_experience; source := from_validator;
                reason := "Experience cannot be negative." |} []).
Proof.
  unfold stable, model_validate. intros Hst Hneg.
  cbn [model_dump d_name d_email d_phone d_experience d_position d_location
         d_tech_stack] in *.
  destruct (_ ++ _)%list eqn:Herr in Hst; [| discriminate].
  apply app_eq_nil in Herr as [H1 Herr].
  apply app_eq_nil in Herr as [H2 Herr].
  apply app_eq_nil in Herr as [H3 Herr].
  apply app_eq_nil in Herr as [_ Herr].
  apply app_eq_nil in Herr as [H5 Herr].
  apply app_eq_nil in Herr as [H6 H7].
  rewrite H1, H2, H3, H5, H6, H7.
  cbn [validate_experience]. rewrite Hneg. reflexivity.
Qed.

(** In a stable profile a number that is not below zero is stored. *)
Lemma experience_stored (E : environment) (a : ApplicantInfo)
    (x : PyFloat.float) :
  stable E a ->
  PyFloat.ltb x PyFloat.zero = false ->
  model_validate E
    {| d_name := name a; d_email := email a; d_phone := phone a;
       d_experience := Some x; d_position := position a;
       d_location := location a; d_tech_stack := tech_stack a |}
  = Return (with_experience a x).
Proof.
  unfold stable, model_validate. intros Hst Hpos.
  cbn [model_dump d_name d_email d_phone d_experience d_position d_location
         d_tech_stack] in *.
  destruct (_ ++ _)%list eqn:Herr in Hst; [| discriminate].
  apply app_eq_nil in Herr as [H1 Herr].
  apply app_eq_nil in Herr as [H2 Herr].
  apply app_eq_nil in Herr as [H3 Herr].
  apply app_eq_nil in Herr as [_ Herr].
  apply app_eq_nil in Herr as [H5 Herr].
  apply app_eq_nil in Herr as [H6 H7].
  rewrite H1, H2, H3, H5, H6, H7.
  cbn [validate_experience]. rewrite Hpos. cbn [errors_of app value_of].
  destruct a as [n e p ex po l t]. cbn [name email phone experience position
    location tech_stack] in *.
  injection Hst as E1 E2 E3 _ E5 E6 E7.
  unfold with_experience. cbn. congruence.
Qed.

(** The profile after a step whose update succeeds or raises. *)
Lemma process_input_profile (E : environment) (st : session_state) (k : key)
    (user_input : string) :
  current_field_to_fill st = Some k ->
  is_termination user_input = false ->
  applicant_info (process_input E st user_input)
  = match updated_info E (applicant_info st) k user_input with
    | Return a => a
    | Raise _ => applicant_info st
    end.
Proof.
  intros Hk Hterm.
  destruct (process_input_outcome E st user_input)
    as [[H _] | [(_ & H & _) | [(k' & e' & _ & Hk' & Hup' & ->)
        | [(k' & a & _ & Hk' & Hup' & _ & ->)
        | (k' & a & text & _ & Hk' & Hup' & _ & _ & ->)]]]];
    try congruence;
    (assert (k' = k) by congruence); subst k'; now rewrite Hup'.
Qed.

(** C8. With the experience pending, the input is first parsed as a
    number. An input that is no number raises the [ValueError] of the
    conversion (the parse error); a number below zero passes the parse and
    is refused by a [ValidationError] (the range error), in a stable
    profile with the reason of the experience validator; the two kinds
    are different exceptions, and neither changes the profile. A number
    that is not below zero is stored, in a stable profile. The input five
    is no number, -1 is a number below zero, and 0 and 3.5 are numbers
    that are not below zero. *)
Theorem experience_parse_then_range (E : environment) (st : session_state)
    (user_input : string) :
  current_field_to_fill st = Some k_experience ->
  is_termination user_input = false ->
  let st' := process_input E st user_input in
  match PyFloat.of_string user_input with
  | None =>
      updated_info E (applicant_info st) k_experience user_input
      = Raise (ValueError ("could not convert string to float: "
                           ++ PyStr.repr user_input))
      /\ applicant_info st' = applicant_info st
  | Some x =>
      if PyFloat.ltb x PyFloat.zero then
        (exists first others,
           updated_info E (applicant_info st) k_experience user_input
           = Raise (ValidationError first others))
        /\ applicant_info st' = applicant_info st
        /\ (stable E (applicant_info st) ->
            updated_info E (applicant_info st) k_experience user_input
            = Raise (ValidationError
                       {| loc := k_experience; source := from_validator;
                          reason := "Experience cannot be negative." |} []))
      else
        stable E (applicant_info st) ->
        updated_info E (applicant_info st) k_experience user_input
        = Return (with_experience (applicant_info st) x)
        /\ applicant_info st' = with_experience (applicant_info st) x
  end
  /\ (forall text first others, ValueError text <> ValidationError first others)
  /\ PyFloat.of_string "five" = None
  /\ PyFloat.of_string "-1" = Some minus_one
  /\ PyFloat.ltb minus_one PyFloat.zero = true
  /\ PyFloat.of_string "0" = Some PyFloat.zero
  /\ PyFloat.ltb PyFloat.zero PyFloat.zero = false
  /\ PyFloat.of_string "3.5" = Some three_and_a_half
  /\ PyFloat.ltb three_and_a_half PyFloat.zero = false.
Proof.
  intros Hk Hterm st'. subst st'.
  split; [| repeat split; discriminate].
  rewrite (process_input_profile E st k_experience user_input Hk Hterm).
  rewrite updated_info_experience. unfold py_float.
  destruct (PyFloat.of_string user_input) as [x |]; [| now split].
  destruct (PyFloat.ltb x PyFloat.zero) eqn:Hx.
  - destruct (negative_experience_refused E (applicant_info st) x Hx)
      as (first & others & Href).
    rewrite Href. split; [eauto |]. split; [reflexivity |].
    intros Hst. rewrite <- Href.
    exact (negative_experience_reason E (applicant_info st) x Hst Hx).
  - intros Hst. rewrite (experience_stored E (applicant_info st) x Hst Hx).
    now split.
Qed.

Lemma experience_parse_then_range_witness :
  current_field_to_fill before_experience = Some k_experience
  /\ is_termination "3.5" = false
  /\ stable Sample.answering (applicant_info before_experience)
  /\ experience
       (applicant_info (process_input Sample.answering before_experience "3.5"))
     = Some three_and_a_half
  /\ applicant_info (process_input Sample.answering before_experience "five")
     = applicant_info before_experience
  /\ applicant_info (process_input Sample.answering before_experience "-1")
     = applicant_info before_experience.
Proof.
  assert (Hst : stable Sample.answering (applicant_info before_experience))
    by reflexivity.
  destruct (experience_parse_then_range Sample.answering before_experience
              "3.5" eq_refl eq_refl) as [Hmain _].
  change (PyFloat.of_string "3.5") with (Some three_and_a_half) in Hmain.
  change (PyFloat.ltb three_and_a_half PyFloat.zero) with false in Hmain.
  destruct (Hmain Hst) as [_ Hinfo].
  destruct (experience_parse_then_range Sample.answering before_experience
              "five" eq_refl eq_refl) as [Hfive _].
  change (PyFloat.of_string "five") with (@None PyFloat.float) in Hfive.
  destruct Hfive as [_ Hfive].
  destruct (experience_parse_then_range Sample.answering before_experience
              "-1" eq_refl eq_refl) as [Hneg _].
  change (PyFloat.of_string "-1") with (Some minus_one) in Hneg.
  change (PyFloat.ltb minus_one PyFloat.zero) with true in Hneg.
  destruct Hneg as (_ & Hneg & _).
  split; [reflexivity |]. split; [reflexivity |]. split; [exact Hst |].
  split; [now rewrite Hinfo |]. split; [exact Hfive | exact Hneg].
Defined.

(** C10. The experience update accepts text for numbers that are not
    finite: nan and inf are parsed by the float conversion, the validator
    does not refuse them, since neither is below zero, and in a stable
    profile with the experience pending the step stores them. NaN is not
    at least zero. *)
Theorem non_finite_experience_accepted (E : environment) (st : session_state) :
  current_field_to_fill st = Some k_experience ->
  stable E (applicant_info st) ->
  PyFloat.of_string "nan" = Some PyFloat.nan
  /\ PyFloat.of_string "inf" = Some (PyFloat.infinity false)
  /\ validate_experience (Some PyFloat.nan) = Return (Some PyFloat.nan)
  /\ validate_experience (Some (PyFloat.infinity false))
     = Return (Some (PyFloat.infinity false))
  /\ applicant_info (process_input E st "nan")
     = with_experience (applicant_info st) PyFloat.nan
  /\ applicant_info (process_input E st "inf")
     = with_experience (applicant_info st) (PyFloat.infinity false)
  /\ at_least_zero PyFloat.nan = false
  /\ PyFloat.ltb PyFloat.nan PyFloat.zero = false.
Proof.
  intros Hk Hst.
  repeat split.
  - rewrite (process_input_profile E st k_experience "nan" Hk eq_refl).
    rewrite updated_info_experience.
    change (py_float "nan") with (Return PyFloat.nan). cbv beta iota.
    now rewrite (experience_stored E _ PyFloat.nan Hst eq_refl).
  - rewrite (process_input_profile E st k_experience "inf" Hk eq_refl).
    rewrite updated_info_experience.
    change (py_float "inf") with (Return (PyFloat.infinity false)).
    cbv beta iota.
    now rewrite (experience_stored E _ (PyFloat.infinity false) Hst eq_refl).
Qed.

Lemma non_finite_experience_accepted_witness :
  current_field_to_fill before_experience = Some k_experience
  /\ stable Sample.answering (applicant_info before_experience)
  /\ experience
       (applicant_info (process_input Sample.answering before_experience "nan"))
     = Some PyFloat.nan.
Proof.
  assert (Hst : stable Sample.answering (applicant_info before_experience))
    by reflexivity.
  destruct (non_finite_experience_accepted Sample.answering before_experience
              eq_refl Hst) as (_ & _ & _ & _ & Hnan & _).
  split; [reflexivity |]. split; [exact Hst |]. now rewrite Hnan.
Defined.

(* ================================================================== *)
(** * Stable profiles *)
(* ================================================================== *)

(** With an e-mail check that accepts the address it returns and leaves
    it as it is, every profile a session reaches is stable: the stability
    asked for above holds in every run of such an environment. *)
Section StableRuns.

Variable E : environment.

Hypothesis email_idempotent :
  forall s n, email_validator E s = inr n -> email_validator E n = inr n.

Lemma model_validate_stable (d : dict) (a : ApplicantInfo) :
  model_validate E d = Return a -> stable E a.
Proof.
  unfold stable, model_validate. intros H.
  destruct (_ ++ _)%list eqn:Herr in H; [| discriminate].
  injection H as <-.
  apply app_eq_nil in Herr as [H1 Herr].
  apply app_eq_nil in Herr as [H2 Herr].
  apply app_eq_nil in Herr as [H3 Herr].
  apply app_eq_nil in Herr as [H4 Herr].
  apply app_eq_nil in Herr as [H5 Herr].
  apply app_eq_nil in Herr as [H6 H7].
  cbn [model_dump d_name d_email d_phone d_experience d_position d_location
         d_tech_stack name email phone experience position location
         tech_stack].
  assert (Vn : validate_name (value_of (validate_name (d_name d)))
               = Return (value_of (validate_name (d_name d)))).
  { destruct (d_name d) as [s |]; [| reflexivity]. cbn in H1 |- *.
    destruct (_ || _) eqn:Hc; [discriminate H1 |]. cbn. now rewrite Hc. }
  assert (Vp : validate_phone (value_of (validate_phone (d_phone d)))
               = Return (value_of (validate_phone (d_phone d)))).
  { destruct (d_phone d) as [s |]; [| reflexivity]. cbn in H3 |- *.
    destruct (_ || _) eqn:Hc; [discriminate H3 |]. cbn. now rewrite Hc. }
  assert (Vx : validate_experience
                 (value_of (validate_experience (d_experience d)))
               = Return (value_of (validate_experience (d_experience d)))).
  { destruct (d_experience d) as [x |]; [| reflexivity]. cbn in H4 |- *.
    destruct (PyFloat.ltb x PyFloat.zero) eqn:Hc; [discriminate H4 |].
    cbn. now rewrite Hc. }
  assert (Ve : forall k v,
             errors_of k (validate_not_empty v) = [] ->
             validate_not_empty (value_of (validate_not_empty v))
             = Return (value_of (validate_not_empty v))).
  { intros k [s |] He; [| reflexivity]. cbn in He |- *.
    destruct (negb _) eqn:Hc; [discriminate He |]. cbn. now rewrite Hc. }
  assert (Vm : email_str E (fst (email_str E (d_email d)))
               = (fst (email_str E (d_email d)), [])).
  { destruct (d_email d) as [s |]; [| reflexivity]. cbn in H2 |- *.
    destruct (email_validator E s) as [why | n] eqn:Hc; [discriminate H2 |].
    cbn. now rewrite (email_idempotent s n Hc). }
  rewrite Vn, Vp, Vx, Vm, (Ve _ _ H5), (Ve _ _ H6), (Ve _ _ H7).
  reflexivity.
Qed.

Lemma run_stable (inputs : list (option string)) :
  stable E (applicant_info (run E inputs)).
Proof.
  apply (run_invariant E (fun st => stable E (applicant_info st)));
    [reflexivity |].
  intros st i Hst.
  destruct (script_run_profile E st i) as [-> | (k & text & Hup)];
    [exact Hst |].
  unfold updated_info, bind in Hup.
  destruct (with_entry (model_dump (applicant_info st)) k text);
    [| discriminate].
  exact (model_validate_stable _ _ Hup).
Qed.

End StableRuns.

(* ================================================================== *)
(** * More on the validators *)
(* ================================================================== *)

Lemma rstrip_empty (r : string) :
  PyStr.rstrip r = EmptyString <-> PyStr.all PyStr.isspace r = true.
Proof.
  unfold PyStr.all, PyStr.chars.
  induction r as [| c r IH]; cbn; [intuition |].
  destruct (PyStr.rstrip r) as [| c' r'] eqn:Hr.
  - destruct (PyStr.isspace c); cbn.
    + split; [intros _; now apply IH | reflexivity].
    + split; discriminate.
  - split; [discriminate |]. intros H. apply andb_prop in H as [_ H].
    apply IH in H. discriminate H.
Qed.

Lemma all_lstrip (s : string) :
  PyStr.all PyStr.isspace (PyStr.lstrip s) = PyStr.all PyStr.isspace s.
Proof.
  unfold PyStr.all, PyStr.chars.
  induction s as [| c s IH]; [reflexivity |]. cbn.
  destruct (PyStr.isspace c) eqn:Hc; [exact IH |]. cbn. now rewrite Hc.
Qed.

(** Something is left after trimming exactly when some character is not
    white space. *)
Lemma non_blank_spec (s : string) :
  non_blank s = some_char (fun c => negb (PyStr.isspace c)) s.
Proof.
  unfold non_blank, PyStr.strip, some_char.
  assert (H : PyStr.truthy (PyStr.rstrip (PyStr.lstrip s))
              = negb (PyStr.all PyStr.isspace s)).
  { rewrite <- all_lstrip.
    destruct (PyStr.rstrip (PyStr.lstrip s)) eqn:Hr.
    - apply rstrip_empty in Hr. now rewrite Hr.
    - destruct (PyStr.all PyStr.isspace (PyStr.lstrip s)) eqn:Ha;
        [| reflexivity].
      apply rstrip_empty in Ha. congruence. }
  rewrite H. unfold PyStr.all.
  induction (PyStr.chars s) as [| c l IH]; [reflexivity |]. cbn.
  rewrite negb_andb, IH. reflexivity.
Qed.

Lemma validate_name_spec (s : string) :
  validate_name (Some s) =
    if alphabetic_or_space s && non_blank s
    then Return (Some s)
    else Raise (ValueError
                  "Name must contain only alphabetic characters and spaces.").
Proof.
  unfold validate_name, alphabetic_or_space, non_blank.
  destruct (PyStr.all _ s), (PyStr.truthy (PyStr.strip s)); reflexivity.
Qed.

Lemma space_is_no_letter (c : ascii) :
  PyStr.isspace c && PyStr.isalpha c = false.
Proof. destruct c as [[] [] [] [] [] [] [] []]; vm_compute; reflexivity. Qed.

Lemma digit_is_no_letter_or_space (c : ascii) :
  PyStr.is_decimal_digit c && (PyStr.isalpha c || PyStr.isspace c) = false.
Proof. destruct c as [[] [] [] [] [] [] [] []]; vm_compute; reflexivity. Qed.

(** An accepted name has a letter: with every character alphabetic or
    white space, a character that is not white space is a letter. *)
Lemma name_has_letter (s : string) :
  alphabetic_or_space s = true ->
  non_blank s = some_char PyStr.isalpha s.
Proof.
  rewrite non_blank_spec. unfold alphabetic_or_space, some_char, PyStr.all.
  induction (PyStr.chars s) as [| c l IH]; [reflexivity |]. cbn.
  intros H. apply andb_prop in H as [Hc Hl]. rewrite (IH Hl).
  destruct (PyStr.isspace c) eqn:Hsp; cbn.
  - destruct (PyStr.isalpha c) eqn:Hal; [| reflexivity].
    pose proof (space_is_no_letter c) as Hno. rewrite Hsp, Hal in Hno.
    discriminate Hno.
  - rewrite orb_false_r in Hc. now rewrite Hc.
Qed.

(** X1. The name validator accepts a text, and returns it as it is,
    exactly when every character is alphabetic or white space and at least
    one is alphabetic; it refuses any other text with its message. So a
    text with a digit is refused, and a text of white space only. Jane Doe
    is accepted; Jane123 and three blanks are refused. *)
Theorem validate_name_accepts (s : string) :
  (validate_name (Some s) = Return (Some s)
   <-> alphabetic_or_space s = true /\ some_char PyStr.isalpha s = true)
  /\ (accepts (validate_name (Some s)) = false
      <-> validate_name (Some s)
          = Raise (ValueError
                     "Name must contain only alphabetic characters and spaces."))
  /\ (some_char PyStr.is_decimal_digit s = true ->
      accepts (validate_name (Some s)) = false)
  /\ (PyStr.all PyStr.isspace s = true ->
      accepts (validate_name (Some s)) = false)
  /\ accepts (validate_name (Some "Jane Doe")) = true
  /\ accepts (validate_name (Some "Jane123")) = false
  /\ accepts (validate_name (Some "   ")) = false.
Proof.
  rewrite validate_name_spec.
  split; [| split; [| split; [| split; [| repeat split; vm_compute; reflexivity]]]].
  - destruct (alphabetic_or_space s) eqn:Ha; cbn.
    + rewrite <- (name_has_letter s Ha).
      destruct (non_blank s); intuition (try discriminate; try congruence).
    + intuition (try discriminate; try congruence).
  - destruct (alphabetic_or_space s && non_blank s); cbn;
      intuition (try discriminate; try congruence).
  - intros Hd. destruct (alphabetic_or_space s) eqn:Ha; [| reflexivity].
    exfalso. revert Ha Hd. unfold alphabetic_or_space, some_char, PyStr.all.
    induction (PyStr.chars s) as [| c l IH]; cbn; [discriminate |].
    intros Ha Hd. apply andb_prop in Ha as [Hc Hl].
    apply orb_prop in Hd as [Hd | Hd]; [| now apply IH].
    pose proof (digit_is_no_letter_or_space c) as Hno.
    rewrite Hd, Hc in Hno. discriminate Hno.
  - intros Hsp. rewrite non_blank_spec.
    assert (Hn : some_char (fun c => negb (PyStr.isspace c)) s = false).
    { revert Hsp. unfold some_char, PyStr.all.
      induction (PyStr.chars s) as [| c l IH]; cbn; [reflexivity |].
      intros H. apply andb_prop in H as [Hc Hl]. now rewrite Hc, (IH Hl). }
    rewrite Hn, andb_false_r. reflexivity.
Qed.

(** X2. The validator of position, location and tech stack accepts a
    text, and returns it as it is (not trimmed), exactly when some
    character is not white space; it refuses any other text, the empty
    one included, with its message. *)
Theorem validate_not_empty_accepts (s : string) :
  (validate_not_empty (Some s) = Return (Some s)
   <-> some_char (fun c => negb (PyStr.isspace c)) s = true)
  /\ (some_char (fun c => negb (PyStr.isspace c)) s = false
      <-> validate_not_empty (Some s)
          = Raise (ValueError "This field cannot be empty."))
  /\ accepts (validate_not_empty (Some "")) = false
  /\ validate_not_empty (Some " Berlin ") = Return (Some " Berlin ").
Proof.
  split; [| split; [| split; vm_compute; reflexivity]].
  - rewrite <- non_blank_spec. unfold validate_not_empty, non_blank.
    destruct (PyStr.truthy (PyStr.strip s)); cbn;
      split; intros; try discriminate; try congruence.
  - rewrite <- non_blank_spec. unfold validate_not_empty, non_blank.
    destruct (PyStr.truthy (PyStr.strip s)); cbn;
      split; intros; try discriminate; try congruence.
Qed.

(** X3. The experience validator refuses exactly the numbers below zero,
    that is the negative numbers other than zero and minus infinity; it
    returns any other number as it is: the zeros of both signs, the
    positive numbers, plus infinity and NaN. *)
Theorem validate_experience_accepts (x : PyFloat.float) :
  (below_zero x = true
   <-> validate_experience (Some x)
       = Raise (ValueError "Experience cannot be negative."))
  /\ (below_zero x = false
      <-> validate_experience (Some x) = Return (Some x))
  /\ validate_experience (Some (S754_zero true)) = Return (Some (S754_zero true))
  /\ PyFloat.of_string "-0.0" = Some (S754_zero true)
  /\ PyFloat.of_string "-1e-400" = Some (S754_zero true).
Proof.
  split; [| split; [| repeat split; vm_compute; reflexivity]].
  - unfold validate_experience, PyFloat.ltb, PyFloat.zero.
    destruct x as [[] | [] | | [] m e]; cbn;
      split; intros; try discriminate; try congruence.
  - unfold validate_experience, PyFloat.ltb, PyFloat.zero.
    destruct x as [[] | [] | | [] m e]; cbn;
      split; intros; try discriminate; try congruence.
Qed.

(* ================================================================== *)
(** * More on the sequencer and on updates *)
(* ================================================================== *)

Ltac first_absent n :=
  exists n; split; [lia |]; split; [reflexivity |];
  split;
  [ intros i Hi; repeat (destruct i as [| i]; [reflexivity |]); lia
  | split;
    [ intros; first [reflexivity | lia]
    | split; intros; first [lia | discriminate | reflexivity] ] ].

(** X4. For any profile, also one with holes, the sequencer asks for the
    first absent field of the collecting order: every field before the
    target is populated and the target is not; the sentinel is returned
    only when all seven fields are populated. The prompt is the one of the
    target. *)
Theorem get_next_prompt_asks_first_absent (a : ApplicantInfo) :
  exists n,
    (n <= 7)%nat
    /\ get_next_prompt a = (prompt_of a (target_after n), target_after n)
    /\ (forall i, (i < n)%nat -> populated a (target_after i) = true)
    /\ ((n < 7)%nat -> populated a (target_after n) = false)
    /\ (n = 7%nat <-> forallb (populated a) collecting_order = true).
Proof.
  destruct a as [vn ve vp vx vo vl vt].
  destruct vn; [| first_absent 0%nat].
  destruct ve; [| first_absent 1%nat].
  destruct vp; [| first_absent 2%nat].
  destruct vx; [| first_absent 3%nat].
  destruct vo; [| first_absent 4%nat].
  destruct vl; [| first_absent 5%nat].
  destruct vt; [| first_absent 6%nat].
  first_absent 7%nat.
Qed.

Lemma validate_name_keeps (v : option string) :
  errors_of k_name (validate_name v) = [] -> value_of (validate_name v) = v.
Proof.
  destruct v as [s |]; [| reflexivity]. unfold validate_name.
  destruct (_ || _); cbn; [discriminate | reflexivity].
Qed.

Lemma validate_phone_keeps (v : option string) :
  errors_of k_phone (validate_phone v) = [] -> value_of (validate_phone v) = v.
Proof.
  destruct v as [s |]; [| reflexivity]. unfold validate_phone.
  destruct (_ || _); cbn; [discriminate | reflexivity].
Qed.

Lemma validate_experience_keeps (v : option PyFloat.float) :
  errors_of k_experience (validate_experience v) = [] ->
  value_of (validate_experience v) = v
  /\ holds not_negative v = true.
Proof.
  destruct v as [x |]; [| now split]. unfold validate_experience, not_negative.
  cbn [holds].
  destruct (PyFloat.ltb x PyFloat.zero); cbn; [discriminate | now split].
Qed.

Lemma validate_not_empty_keeps (k : key) (v : option string) :
  errors_of k (validate_not_empty v) = [] ->
  value_of (validate_not_empty v) = v.
Proof.
  destruct v as [s |]; [| reflexivity]. unfold validate_not_empty.
  destruct (negb _); cbn; [discriminate | reflexivity].
Qed.

(** What [model_validate] returns, field by field: the entries as they
    are, the e-mail address as the check normalises it. *)
Lemma model_validate_returns (E : environment) (d : dict) (a : ApplicantInfo) :
  model_validate E d = Return a ->
  name a = d_name d
  /\ email a = fst (email_str E (d_email d))
  /\ snd (email_str E (d_email d)) = []
  /\ phone a = d_phone d
  /\ experience a = d_experience d
  /\ holds not_negative (d_experience d) = true
  /\ position a = d_position d
  /\ location a = d_location d
  /\ tech_stack a = d_tech_stack d.
Proof.
  unfold model_validate. intros H.
  destruct (_ ++ _)%list eqn:Herr in H; [| discriminate].
  injection H as <-.
  apply app_eq_nil in Herr as [H1 Herr].
  apply app_eq_nil in Herr as [H2 Herr].
  apply app_eq_nil in Herr as [H3 Herr].
  apply app_eq_nil in Herr as [H4 Herr].
  apply app_eq_nil in Herr as [H5 Herr].
  apply app_eq_nil in Herr as [H6 H7].
  cbn [name email phone experience position location tech_stack].
  destruct (validate_experience_keeps _ H4) as [Hx Hnn].
  rewrite (validate_name_keeps _ H1), (validate_phone_keeps _ H3), Hx,
    (validate_not_empty_keeps _ _ H5), (validate_not_empty_keeps _ _ H6),
    (validate_not_empty_keeps _ _ H7).
  repeat split; assumption.
Qed.

Lemma stable_email (E : environment) (a : ApplicantInfo) :
  stable E a -> fst (email_str E (email a)) = email a.
Proof.
  intros Hst. apply model_validate_returns in Hst.
  destruct Hst as (_ & He & _). cbn in He. congruence.
Qed.

(** What a successful update stores, in a stable profile. *)
Lemma updated_info_sets_one_field (E : environment)
    (a a' : ApplicantInfo) (k : key) (user_input : string) :
  stable E a ->
  updated_info E a k user_input = Return a' ->
  match k with
  | k_experience =>
      exists x,
        PyFloat.of_string user_input = Some x
        /\ PyFloat.ltb x PyFloat.zero = false
        /\ a' = with_experience a x
  | k_email =>
      exists normalized,
        email_validator E user_input = inr normalized
        /\ a' = with_text a k_email normalized
  | k_generate_questions => a' = a
  | _ => a' = with_text a k user_input
  end.
Proof.
  intros Hst Hup. pose proof (stable_email E a Hst) as Hmail.
  unfold updated_info, bind in Hup.
  destruct (with_entry (model_dump a) k user_input) as [d |] eqn:Hw;
    [| discriminate].
  apply model_validate_returns in Hup.
  destruct Hup as (U1 & U2 & U2' & U3 & U4 & U4' & U5 & U6 & U7).
  destruct a as [vn ve vp vx vo vl vt], a' as [wn we wp wx wo wl wt].
  cbn [name email phone experience position location tech_stack] in *.
  destruct k; cbn in Hw.
  - injection Hw as <-. cbn in *. unfold with_text. cbn. congruence.
  - injection Hw as <-. cbn in *.
    destruct (email_validator E user_input) as [why | n] eqn:Hv;
      [discriminate U2' |].
    exists n. split; [reflexivity |]. unfold with_text. cbn in *. congruence.
  - injection Hw as <-. cbn in *. unfold with_text. cbn. congruence.
  - unfold py_float in Hw.
    destruct (PyFloat.of_string user_input) as [x |]; [| discriminate].
    cbn in Hw. injection Hw as <-. cbn in *. exists x.
    split; [reflexivity |]. split.
    + unfold not_negative in U4'. now destruct (PyFloat.ltb x PyFloat.zero).
    + unfold with_experience. cbn. congruence.
  - injection Hw as <-. cbn in *. unfold with_text. cbn. congruence.
  - injection Hw as <-. cbn in *. unfold with_text. cbn. congruence.
  - injection Hw as <-. cbn in *. unfold with_text. cbn. congruence.
  - injection Hw as <-. cbn in *. congruence.
Qed.

(** X5. In a stable profile, a successful update for the pending field
    [k] changes that field only, and stores the input as it was typed,
    white space included: the raw text for name, phone, position, location
    and tech stack; the address as the e-mail check normalises it; the
    number the input parses to, which is not below zero. The sentinel as
    pending field changes nothing. *)
Theorem successful_update_sets_one_field (E : environment)
    (a a' : ApplicantInfo) (k : key) (user_input : string) :
  stable E a ->
  updated_info E a k user_input = Return a' ->
  match k with
  | k_experience =>
      exists x,
        PyFloat.of_string user_input = Some x
        /\ PyFloat.ltb x PyFloat.zero = false
        /\ a' = with_experience a x
  | k_email =>
      exists normalized,
        email_validator E user_input = inr normalized
        /\ a' = with_text a k_email normalized
  | k_generate_questions => a' = a
  | _ => a' = with_text a k user_input
  end.
Proof. exact (updated_info_sets_one_field E a a' k user_input). Qed.

Lemma successful_update_sets_one_field_witness :
  stable Sample.answering (applicant_info after_name)
  /\ updated_info Sample.answering (applicant_info after_name) k_email
       "jane@x.com"
     = Return (with_text (applicant_info after_name) k_email "jane@x.com")
  /\ name (with_text (applicant_info after_name) k_email "jane@x.com")
     = Some "Jane Doe".
Proof.
  assert (Hst : stable Sample.answering (applicant_info after_name))
    by reflexivity.
  destruct (successful_update_sets_one_field Sample.answering
              (applicant_info after_name)
              (with_text (applicant_info after_name) k_email "jane@x.com")
              k_email "jane@x.com" Hst eq_refl) as (n & Hn & Ha).
  split; [exact Hst |]. split; reflexivity.
Defined.

(* ================================================================== *)
(** * More on whole sessions *)
(* ================================================================== *)

(** What a script run does, for a session that satisfies [session_inv]:
    nothing; or it only emits the first prompt; or it processes an input,
    with the target of the sequencer as the pending field. *)
Lemma script_run_outcome (E : environment) (st : session_state)
    (i : option string) :
  session_inv st ->
  script_run E st i = st
  \/ (messages st = [] /\ script_run E st i = first_prompt st)
  \/ (exists text,
        configured (GOOGLE_API_KEY E) = true
        /\ conversation_finished st = false
        /\ i = Some text
        /\ PyStr.truthy text = true
        /\ script_run E st i = process_input E (first_prompt st) text
        /\ current_field_to_fill (first_prompt st)
           = Some (snd (get_next_prompt (applicant_info st)))
        /\ tech_stack (applicant_info st) = None
        /\ generation_calls st = []).
Proof.
  intros [_ Hcoll]. unfold script_run.
  destruct (configured (GOOGLE_API_KEY E)) eqn:Hkey; cbn [negb];
    [| now left].
  destruct (first_prompt_frame st) as (Ha & Hf & Hc & Hm & Hsame & Hfirst).
  assert (Hidle : first_prompt st = st
                  \/ (messages st = [] /\ first_prompt st = first_prompt st)).
  { destruct (messages st) as [| m l] eqn:Hms.
    - right. now split.
    - left. apply Hsame. discriminate. }
  rewrite Hf.
  destruct (conversation_finished st) eqn:Hfin; cbn [negb];
    [destruct Hidle as [-> | [? _]]; [now left | right; left; now split] |].
  destruct i as [text |];
    [| destruct Hidle as [-> | [? _]]; [now left | right; left; now split]].
  destruct (PyStr.truthy text) eqn:Htext;
    [| destruct Hidle as [-> | [? _]]; [now left | right; left; now split]].
  right. right. exists text.
  destruct (Hcoll Hfin) as (H1 & H2 & H3).
  repeat split; try assumption.
  destruct (messages st) as [| m l] eqn:Hms.
  - now apply Hfirst.
  - rewrite Hsame by discriminate. apply H3. discriminate.
Qed.

Lemma run_invariant_inv (E : environment) (P : session_state -> Prop) :
  P fresh_session ->
  (forall st i, session_inv st -> P st -> P (script_run E st i)) ->
  forall inputs, P (run E inputs).
Proof.
  intros H0 Hstep inputs.
  apply (run_invariant E (fun st => session_inv st /\ P st)).
  - split; [| exact H0].
    split; [cbn; lia |]. intros _. repeat split. intros H. now elim H.
  - intros st i [Hinv HP]. split; [| now apply Hstep].
    now apply script_run_generation.
Qed.

(** ** The order in which the fields are filled *)

Lemma prefix_flags_step (n : nat) :
  (n < 7)%nat ->
  target_of (prefix_flags n) = target_after n
  /\ with_flag (target_after n) (prefix_flags n) = prefix_flags (S n)
  /\ nth 6 (prefix_flags n) false = false.
Proof.
  intros Hn. do 7 (destruct n as [| n]; [repeat split |]). lia.
Qed.

Lemma prefix_flags_full : target_of (prefix_flags 7) = k_generate_questions
  /\ nth 6 (prefix_flags 7) false = true.
Proof. split; reflexivity. Qed.

(** X6. In every run the fields are filled strictly in the collecting
    order: the populated fields are the first [n] of the order, for some
    [n]. While the conversation is open and the first prompt is out, a
    field is still absent and the pending field is the first absent one;
    so an input never meets the branch for a missing pending field. *)
Theorem fields_filled_in_order (E : environment)
    (inputs : list (option string)) :
  let st := run E inputs in
  exists n,
    (n <= 7)%nat
    /\ first_populated n (applicant_info st)
    /\ (conversation_finished st = false ->
        (n < 7)%nat
        /\ (messages st <> [] ->
            current_field_to_fill st = Some (target_after n))).
Proof.
  cbv zeta.
  assert (H : exists n, (n <= 7)%nat
                        /\ first_populated n (applicant_info (run E inputs))).
  { apply (run_invariant_inv E
             (fun st => exists n, (n <= 7)%nat
                                  /\ first_populated n (applicant_info st))).
    { exists 0%nat. split; [lia | reflexivity]. }
    intros st i Hinv (n & Hn & Hfp).
    destruct (script_run_outcome E st i Hinv)
      as [-> | [(_ & ->) | (text & _ & _ & _ & _ & -> & Hcur & Htech & _)]].
    - now exists n.
    - destruct (first_prompt_frame st) as (-> & _). now exists n.
    - destruct (first_prompt_frame st) as (Ha & _).
      destruct (process_input_outcome E (first_prompt st) text)
        as [[_ ->] | [(_ & _ & ->) | [(k & e & _ & _ & _ & ->)
            | [(k & a & _ & Hk & Hup & _ & ->)
            | (k & a & t & _ & Hk & Hup & _ & _ & ->)]]]];
        cbn [applicant_info]; rewrite ?Ha; try (now exists n).
      + assert (Hlt : (n < 7)%nat).
        { destruct (Nat.eq_dec n 7) as [-> |]; [| lia].
          unfold first_populated in Hfp.
          pose proof (tech_stack_flag (applicant_info st)) as Hflag.
          rewrite Hfp, Htech in Hflag. discriminate Hflag. }
        destruct (prefix_flags_step n Hlt) as (Ht & Hw & _).
        exists (S n). split; [lia |]. unfold first_populated.
        rewrite (updated_info_shape E _ _ _ _ Hup), Ha.
        unfold first_populated in Hfp. rewrite Hfp.
        assert (k = target_after n) as ->; [| exact Hw].
        rewrite Hcur in Hk. injection Hk as <-.
        rewrite get_next_prompt_target, Hfp. exact Ht.
      + assert (Hlt : (n < 7)%nat).
        { destruct (Nat.eq_dec n 7) as [-> |]; [| lia].
          unfold first_populated in Hfp.
          pose proof (tech_stack_flag (applicant_info st)) as Hflag.
          rewrite Hfp, Htech in Hflag. discriminate Hflag. }
        destruct (prefix_flags_step n Hlt) as (Ht & Hw & _).
        exists (S n). split; [lia |]. unfold first_populated.
        rewrite (updated_info_shape E _ _ _ _ Hup), Ha.
        unfold first_populated in Hfp. rewrite Hfp.
        assert (k = target_after n) as ->; [| exact Hw].
        rewrite Hcur in Hk. injection Hk as <-.
        rewrite get_next_prompt_target, Hfp. exact Ht. }
  destruct H as (n & Hn & Hfp). exists n.
  split; [exact Hn |]. split; [exact Hfp |].
  intros Hopen.
  destruct (run_session_inv E inputs) as [_ Hcoll].
  destruct (Hcoll Hopen) as (_ & Htech & Hcur).
  assert (Hlt : (n < 7)%nat).
  { destruct (Nat.eq_dec n 7) as [-> |]; [| lia].
    unfold first_populated in Hfp.
    pose proof (tech_stack_flag (applicant_info (run E inputs))) as Hflag.
    rewrite Hfp, Htech in Hflag. discriminate Hflag. }
  split; [exact Hlt |]. intros Hm. rewrite (Hcur Hm).
  rewrite get_next_prompt_target. unfold first_populated in Hfp.
  rewrite Hfp. f_equal. apply (prefix_flags_step n Hlt).
Qed.

(** ** Finished conversations *)

Lemma last_message_snoc (l : list message) (m : message) :
  last_message (l ++ [m]) = Some m.
Proof. unfold last_message. now rewrite rev_unit. Qed.

Lemma last_message_snoc2 (l : list message) (m1 m2 : message) :
  last_message (l ++ [m1; m2]) = Some m2.
Proof.
  change [m1; m2] with ([m1] ++ [m2])%list.
  rewrite app_assoc. apply last_message_snoc.
Qed.

Lemma last_message_snoc4 (l : list message) (m1 m2 m3 m4 : message) :
  last_message (l ++ [m1; m2; m3; m4]) = Some m4.
Proof.
  change [m1; m2; m3; m4] with ([m1; m2; m3] ++ [m4])%list.
  rewrite app_assoc. apply last_message_snoc.
Qed.

Lemma script_run_farewell (E : environment) (st : session_state)
    (i : option string) :
  session_inv st -> ends_with_farewell st ->
  ends_with_farewell (script_run E st i).
Proof.
  intros Hinv HK.
  destruct (script_run_outcome E st i Hinv)
    as [-> | [(Hm & ->) | (text & _ & Hopen & _ & _ & -> & Hcur & _)]];
    [exact HK | |].
  - destruct (first_prompt_frame st) as (_ & Hf & _).
    intros Hfin. rewrite Hf in Hfin. specialize (HK Hfin).
    rewrite Hm in HK. discriminate HK.
  - destruct (first_prompt_frame st) as (_ & Hf & _).
    destruct (process_input_outcome E (first_prompt st) text)
      as [[_ ->] | [(_ & Hnone & _) | [(k & e & _ & _ & _ & ->)
          | [(k & a & _ & _ & _ & _ & ->)
          | (k & a & t & _ & _ & _ & _ & _ & ->)]]]];
      intros Hfin; cbn in Hfin |- *; try congruence.
    + apply last_message_snoc2.
    + apply last_message_snoc4.
Qed.

Lemma run_farewell (E : environment) (inputs : list (option string)) :
  ends_with_farewell (run E inputs).
Proof.
  apply run_invariant_inv; [intros H; discriminate H |].
  intros st i. apply script_run_farewell.
Qed.

Lemma script_run_finished (E : environment) (st : session_state)
    (i : option string) :
  session_inv st -> ends_with_farewell st ->
  conversation_finished st = true ->
  script_run E st i = st.
Proof.
  intros Hinv HK Hfin.
  destruct (script_run_outcome E st i Hinv)
    as [-> | [(Hm & _) | (text & _ & Hopen & _)]];
    [reflexivity | | congruence].
  specialize (HK Hfin). rewrite Hm in HK. discriminate HK.
Qed.

(** X7. Once the conversation is finished, in any run, no further script
    run changes the session, whatever is submitted: the profile, the
    transcript and the status stay as they are, and no generation call is
    made. *)
Theorem finished_session_is_final (E : environment)
    (inputs more : list (option string)) :
  conversation_finished (run E inputs) = true ->
  run E (inputs ++ more) = run E inputs.
Proof.
  intros Hfin. unfold run at 1. rewrite fold_left_app. fold (run E inputs).
  pose proof (run_session_inv E inputs) as Hinv.
  pose proof (run_farewell E inputs) as HK.
  induction more as [| i more IH]; [reflexivity |].
  cbn [fold_left].
  now rewrite (script_run_finished E (run E inputs) i Hinv HK Hfin).
Qed.

Lemma finished_session_is_final_witness :
  conversation_finished (run Sample.answering [Some "Jane Doe"; Some "bye"])
  = true
  /\ run Sample.answering
       ([Some "Jane Doe"; Some "bye"] ++ [Some "jane@x.com"; None; Some "x"])
     = run Sample.answering [Some "Jane Doe"; Some "bye"].
Proof.
  split; [reflexivity |].
  apply (finished_session_is_final Sample.answering
           [Some "Jane Doe"; Some "bye"]
           [Some "jane@x.com"; None; Some "x"]).
  reflexivity.
Defined.

(** X8. In any run, a finished conversation has the farewell of the
    assistant as its last message, whether it ended by a termination
    keyword or after the generation. *)
Theorem finished_session_ends_with_farewell (E : environment)
    (inputs : list (option string)) :
  conversation_finished (run E inputs) = true ->
  exists earlier,
    messages (run E inputs)
    = (earlier ++ [said assistant farewell_message])%list.
Proof.
  intros Hfin. pose proof (run_farewell E inputs Hfin) as Hlast.
  unfold last_message in Hlast.
  destruct (rev (messages (run E inputs))) as [| m l] eqn:Hrev;
    [discriminate |].
  injection Hlast as ->. exists (rev l).
  rewrite <- (rev_involutive (messages (run E inputs))), Hrev. reflexivity.
Qed.

Lemma finished_session_ends_with_farewell_witness :
  conversation_finished (run Sample.answering [Some "Jane Doe"; Some "bye"])
  = true
  /\ exists earlier,
       messages (run Sample.answering [Some "Jane Doe"; Some "bye"])
       = (earlier ++ [said assistant farewell_message])%list.
Proof.
  split; [reflexivity |].
  apply (finished_session_ends_with_farewell Sample.answering
           [Some "Jane Doe"; Some "bye"]).
  reflexivity.
Defined.

(** ** The transcript *)

(** What a processed input adds to the transcript. *)
Lemma process_input_messages (E : environment) (st : session_state)
    (user_input : string) :
  exists replies,
    messages (process_input E st user_input)
    = (messages st ++ said user user_input :: replies)%list
    /\ Forall (fun m => msg_role m = assistant) replies
    /\ (length replies = 1%nat
        \/ (length replies = 3%nat
            /\ snd (get_next_prompt
                      (applicant_info (process_input E st user_input)))
               = k_generate_questions)).
Proof.
  destruct (process_input_outcome E st user_input)
    as [[_ ->] | [(_ & _ & ->) | [(k & e & _ & _ & _ & ->)
        | [(k & a & _ & _ & _ & _ & ->)
        | (k & a & t & _ & _ & _ & Hg & _ & ->)]]]];
    cbn [messages applicant_info]; eexists; (split; [reflexivity |]);
    (split; [repeat constructor |]);
    first [ left; reflexivity | right; split; [reflexivity | exact Hg] ].
Qed.

(** X9. Whatever the state and the input, processing an input appends to
    the transcript the input itself, as typed, as a user message, followed
    by one reply of the assistant, or by three when the input filled the
    form (acknowledgment, questions, farewell). Nothing else is added and
    nothing already there is changed. *)
Theorem process_input_appends (E : environment) (st : session_state)
    (user_input : string) :
  exists replies,
    messages (process_input E st user_input)
    = (messages st ++ said user user_input :: replies)%list
    /\ Forall (fun m => msg_role m = assistant) replies
    /\ (length replies = 1%nat
        \/ (length replies = 3%nat
            /\ snd (get_next_prompt
                      (applicant_info (process_input E st user_input)))
               = k_generate_questions)).
Proof. exact (process_input_messages E st user_input). Qed.

Lemma script_run_extends (E : environment) (st : session_state)
    (i : option string) :
  exists suffix,
    messages (script_run E st i) = (messages st ++ suffix)%list.
Proof.
  assert (Hfirst : exists s1,
             messages (first_prompt st) = (messages st ++ s1)%list).
  { unfold first_prompt. destruct (messages st) as [| m l] eqn:Hm.
    - destruct (get_next_prompt (applicant_info st)) as [p k]. cbn.
      rewrite Hm. eexists. reflexivity.
    - exists []. now rewrite Hm, app_nil_r. }
  destruct Hfirst as [s1 Hs1].
  unfold script_run.
  destruct (negb (configured (GOOGLE_API_KEY E)));
    [exists []; now rewrite app_nil_r |].
  destruct (negb (conversation_finished (first_prompt st)));
    [| now exists s1].
  destruct i as [text |]; [| now exists s1].
  destruct (PyStr.truthy text); [| now exists s1].
  destruct (process_input_messages E (first_prompt st) text)
    as (replies & -> & _).
  rewrite Hs1, <- app_assoc. eexists. reflexivity.
Qed.

(** X10. The transcript is append-only over a whole session: the
    transcript after more script runs is the transcript before them with
    messages added at the end. *)
Theorem transcript_is_append_only (E : environment)
    (inputs more : list (option string)) :
  exists suffix,
    messages (run E (inputs ++ more))
    = (messages (run E inputs) ++ suffix)%list.
Proof.
  induction more as [| i more IH] using rev_ind.
  - exists []. now rewrite !app_nil_r.
  - destruct IH as [s1 Hs1]. rewrite app_assoc, run_snoc.
    destruct (script_run_extends E (run E (inputs ++ more)) i) as [s2 ->].
    rewrite Hs1, <- app_assoc. eexists. reflexivity.
Qed.

Lemma script_run_greeting (E : environment) (st : session_state)
    (i : option string) :
  starts_with_greeting st ->
  starts_with_greeting (script_run E st i)
  /\ (configured (GOOGLE_API_KEY E) = true -> messages (script_run E st i) <> []).
Proof.
  intros Hg.
  destruct (script_run_extends E st i) as [suffix Hs].
  split.
  - destruct Hg as [[Hm Ha] | [rest Hm]].
    + unfold script_run in *.
      destruct (negb (configured (GOOGLE_API_KEY E))); [now left |].
      assert (Hfp : messages (first_prompt st) = [said assistant greeting]).
      { unfold first_prompt. rewrite Hm, Ha. cbn. now rewrite Hm. }
      right.
      destruct (negb (conversation_finished (first_prompt st)));
        [| eexists; exact Hfp].
      destruct i as [text |]; [| eexists; exact Hfp].
      destruct (PyStr.truthy text); [| eexists; exact Hfp].
      destruct (process_input_messages E (first_prompt st) text)
        as (replies & -> & _).
      rewrite Hfp. eexists. reflexivity.
    + right. rewrite Hs, Hm. eexists. reflexivity.
  - intros Hkey. unfold script_run. rewrite Hkey. cbn [negb].
    destruct (first_prompt_frame st) as (_ & _ & _ & Hne & _).
    destruct (negb (conversation_finished (first_prompt st))); [| exact Hne].
    destruct i as [text |]; [| exact Hne].
    destruct (PyStr.truthy text); [| exact Hne].
    destruct (process_input_messages E (first_prompt st) text)
      as (replies & -> & _).
    intros Habs. apply app_eq_nil in Habs as [_ Habs]. discriminate Habs.
Qed.

(** X11. In any run, the transcript is empty or starts with the greeting
    of the assistant, the question for the name; with the API key
    configured it is not empty from the first script run on, also when
    that run already brings an input. *)
Theorem transcript_starts_with_greeting (E : environment)
    (inputs : list (option string)) :
  (messages (run E inputs) = []
   \/ exists rest, messages (run E inputs) = said assistant greeting :: rest)
  /\ (configured (GOOGLE_API_KEY E) = true -> inputs <> [] ->
      exists rest, messages (run E inputs) = said assistant greeting :: rest).
Proof.
  assert (H : starts_with_greeting (run E inputs)).
  { apply run_invariant; [left; now split |].
    intros st i Hst. now apply script_run_greeting. }
  split.
  - destruct H as [[Hm _] | Hr]; [now left | now right].
  - intros Hkey Hne.
    destruct inputs as [| i inputs] using rev_ind; [now elim Hne |].
    clear IHinputs.
    assert (Hprev : starts_with_greeting (run E inputs)).
    { apply run_invariant; [left; now split |].
      intros st j Hst. now apply script_run_greeting. }
    rewrite run_snoc in *.
    destruct (script_run_greeting E (run E inputs) i Hprev) as [_ Hnon].
    destruct H as [[Hm _] | Hr]; [| exact Hr].
    elim (Hnon Hkey Hm).
Qed.

(** ** What the adapter is called with, and what the profile never holds *)

Lemma run_constraints (E : environment) (inputs : list (option string)) :
  constraints not_negative (applicant_info (run E inputs)) = true.
Proof.
  apply (run_invariant E
           (fun st => constraints not_negative (applicant_info st) = true));
    [reflexivity |].
  intros st i Hst.
  destruct (script_run_profile E st i) as [-> | (k & text & Hup)];
    [exact Hst |].
  exact (updated_info_constraints E _ _ _ _ Hup).
Qed.

(** X12. In any run, every argument the generation adapter was called
    with is the tech stack stored in the profile, and it is not blank:
    some character of it is not white space. *)
Theorem adapter_called_with_stored_tech_stack (E : environment)
    (inputs : list (option string)) :
  Forall
    (fun t =>
       tech_stack (applicant_info (run E inputs)) = Some t
       /\ some_char (fun c => negb (PyStr.isspace c)) t = true)
    (generation_calls (run E inputs)).
Proof.
  assert (H : forall t, In t (generation_calls (run E inputs)) ->
                        tech_stack (applicant_info (run E inputs)) = Some t).
  { apply (run_invariant_inv E
             (fun st => forall t, In t (generation_calls st) ->
                                  tech_stack (applicant_info st) = Some t)).
    { intros t []. }
    intros st i Hinv Hst t Hin.
    destruct (script_run_generation E st i Hinv)
      as [_ [[Hq1 Hq2] | (t' & _ & _ & _ & G4 & G5 & _)]].
    - rewrite Hq2. apply Hst. now rewrite <- Hq1.
    - rewrite G5 in Hin. destruct Hin as [<- | []]. exact G4. }
  apply Forall_forall. intros t Hin. specialize (H t Hin).
  split; [exact H |].
  pose proof (run_constraints E inputs) as Hc.
  unfold constraints in Hc. rewrite H in Hc. cbn [holds] in Hc.
  rewrite <- non_blank_spec.
  destruct (non_blank t); [reflexivity |].
  now rewrite !andb_false_r in Hc.
Qed.

Lemma adapter_called_with_stored_tech_stack_witness :
  generation_calls
    (run Sample.answering (Sample.six_answers ++ [Some " Rust "]))
  = [" Rust "]
  /\ Forall
       (fun t =>
          tech_stack
            (applicant_info
               (run Sample.answering (Sample.six_answers ++ [Some " Rust "])))
          = Some t
          /\ some_char (fun c => negb (PyStr.isspace c)) t = true)
       (generation_calls
          (run Sample.answering (Sample.six_answers ++ [Some " Rust "]))).
Proof.
  split; [reflexivity |].
  exact (adapter_called_with_stored_tech_stack Sample.answering
           (Sample.six_answers ++ [Some " Rust "])).
Defined.

Lemma script_run_profile_input (E : environment) (st : session_state)
    (i : option string) :
  applicant_info (script_run E st i) = applicant_info st
  \/ exists k text,
       is_termination text = false
       /\ updated_info E (applicant_info st) k text
          = Return (applicant_info (script_run E st i)).
Proof.
  unfold script_run.
  destruct (negb (configured (GOOGLE_API_KEY E))); [now left |].
  destruct (first_prompt_frame st) as (Ha & _).
  destruct (negb (conversation_finished (first_prompt st))); [| now left].
  destruct i as [text |]; [| now left].
  destruct (PyStr.truthy text); [| now left].
  rewrite <- Ha.
  destruct (process_input_outcome E (first_prompt st) text)
    as [[_ ->] | [(_ & _ & ->) | [(k & e & _ & _ & _ & ->)
        | [(k & a & Ht & _ & Hup & _ & ->)
        | (k & a & t & Ht & _ & Hup & _ & _ & ->)]]]];
    cbn; try (now left); right; now exists k, text.
Qed.

Lemma updated_info_keyword_free (E : environment) (a a' : ApplicantInfo)
    (k : key) (text : string) :
  keyword_free a = true ->
  is_termination text = false ->
  updated_info E a k text = Return a' ->
  keyword_free a' = true.
Proof.
  intros Hfree Hterm Hup. unfold updated_info, bind in Hup.
  destruct (with_entry (model_dump a) k text) as [d |] eqn:Hw;
    [| discriminate].
  apply model_validate_returns in Hup.
  destruct Hup as (U1 & _ & _ & U3 & _ & _ & U5 & U6 & U7).
  unfold keyword_free in *. rewrite U1, U3, U5, U6, U7.
  destruct a as [vn ve vp vx vo vl vt].
  cbn [name email phone experience position location tech_stack] in Hfree.
  apply andb_prop in Hfree as [Hfree H7].
  apply andb_prop in Hfree as [Hfree H6].
  apply andb_prop in Hfree as [Hfree H5].
  apply andb_prop in Hfree as [H1 H3].
  destruct k; cbn in Hw;
    try (injection Hw as <-;
         cbn [model_dump d_name d_phone d_position d_location d_tech_stack
                name phone position location tech_stack holds];
         rewrite ?Hterm, ?H1, ?H3, ?H5, ?H6, ?H7; reflexivity).
  unfold py_float in Hw.
  destruct (PyFloat.of_string text); [| discriminate].
  cbn in Hw. injection Hw as <-.
  cbn [d_name d_phone d_position d_location d_tech_stack].
  now rewrite H1, H3, H5, H6, H7.
Qed.

(** X13. In any run, the name, the phone, the position, the location and
    the tech stack of the profile are never a termination keyword, in any
    letter case: an input that matches a keyword ends the conversation
    before it can be stored. *)
Theorem profile_never_holds_keyword (E : environment)
    (inputs : list (option string)) :
  keyword_free (applicant_info (run E inputs)) = true.
Proof.
  apply (run_invariant E
           (fun st => keyword_free (applicant_info st) = true));
    [reflexivity |].
  intros st i Hst.
  destruct (script_run_profile_input E st i)
    as [-> | (k & text & Hterm & Hup)]; [exact Hst |].
  exact (updated_info_keyword_free E _ _ _ _ Hst Hterm Hup).
Qed.

(** ** Without an API key *)

(** X14. Without an API key (unset, or set to the empty text) the script
    stops before it reads the session: whatever is submitted, the session
    stays the fresh one, with an empty transcript and an empty profile. *)
Theorem no_api_key_no_session (E : environment)
    (inputs : list (option string)) :
  configured (GOOGLE_API_KEY E) = false ->
  run E inputs = fresh_session.
Proof.
  intros Hkey.
  apply (run_invariant E (fun st => st = fresh_session)); [reflexivity |].
  intros st i ->. unfold script_run. now rewrite Hkey.
Qed.

Lemma no_api_key_no_session_witness :
  configured (GOOGLE_API_KEY unconfigured) = false
  /\ run unconfigured [Some "Jane Doe"; Some "jane@x.com"] = fresh_session.
Proof.
  split; [reflexivity |].
  apply (no_api_key_no_session unconfigured
           [Some "Jane Doe"; Some "jane@x.com"]).
  reflexivity.
Defined.

(** ** The step that fills the form *)

(** X15. When an update fills the form and the service answers, the step
    appends four messages: the input, the acknowledgment with the tech
    stack put in, the text of the service as it came, and the farewell. It
    finishes the conversation, drops the pending field, and adds one
    generation call, with the tech stack as its argument. *)
Theorem generation_step_transcript (E : environment) (st : session_state)
    (k : key) (user_input : string) (a : ApplicantInfo) (t text : string) :
  current_field_to_fill st = Some k ->
  is_termination user_input = false ->
  updated_info E (applicant_info st) k user_input = Return a ->
  snd (get_next_prompt a) = k_generate_questions ->
  tech_stack a = Some t ->
  configured (GOOGLE_API_KEY E) = true ->
  generate_content E (question_prompt t) = Return text ->
  process_input E st user_input
  = {| messages :=
         messages st
         ++ [said user user_input;
             said assistant (acknowledgment t);
             said assistant text;
             said assistant farewell_message];
       applicant_info := a;
       current_field_to_fill := None;
       conversation_finished := true;
       generation_calls := generation_calls st ++ [t] |}.
Proof.
  intros Hk Hterm Hup Hgen Htech Hkey Hanswer.
  destruct (process_input_outcome E st user_input)
    as [[H _] | [(_ & H & _) | [(k' & e' & _ & Hk' & Hup' & _)
        | [(k' & a' & _ & Hk' & Hup' & Hn & _)
        | (k' & a' & text' & _ & Hk' & Hup' & Hn & Htext & ->)]]]];
    try congruence.
  assert (a' = a) by congruence. subst a'.
  rewrite Htech in Htext |- *. cbn [py_str] in Htext |- *.
  unfold generate_technical_questions in Htext.
  rewrite Hkey, Hanswer in Htext. cbn in Htext. injection Htext as <-.
  reflexivity.
Qed.

Lemma generation_step_transcript_witness :
  let st := before_tech_stack Sample.answering in
  current_field_to_fill st = Some k_tech_stack
  /\ messages (process_input Sample.answering st "{tech_stack}")
     = (messages st
        ++ [said user "{tech_stack}";
            said assistant (acknowledgment "{tech_stack}");
            said assistant Sample.questions;
            said assistant farewell_message])%list
  /\ generation_calls (process_input Sample.answering st "{tech_stack}")
     = ["{tech_stack}"].
Proof.
  cbv zeta.
  pose proof (generation_step_transcript Sample.answering
                (before_tech_stack Sample.answering) k_tech_stack
                "{tech_stack}"
                (with_text (applicant_info (before_tech_stack Sample.answering))
                   k_tech_stack "{tech_stack}")
                "{tech_stack}" Sample.questions
                eq_refl eq_refl eq_refl eq_refl eq_refl eq_refl eq_refl) as H.
  rewrite H. split; [reflexivity |]. split; reflexivity.
Defined.

(** ** Answers are kept *)

Lemma keeps_answers_refl (a : ApplicantInfo) : keeps_answers a a.
Proof. repeat split; auto. Qed.

Lemma keeps_answers_trans (a b c : ApplicantInfo) :
  keeps_answers a b -> keeps_answers b c -> keeps_answers a c.
Proof.
  intros (A1 & A2 & A3 & A4 & A5 & A6 & A7) (B1 & B2 & B3 & B4 & B5 & B6 & B7).
  repeat split; auto.
Qed.

Lemma target_not_populated (a : ApplicantInfo) :
  tech_stack a = None -> populated a (snd (get_next_prompt a)) = false.
Proof.
  destruct a as [vn ve vp vx vo vl vt]. cbn. intros ->.
  destruct vn, ve, vp, vx, vo, vl; reflexivity.
Qed.

Lemma update_keeps_answers (E : environment) (a a' : ApplicantInfo) (k : key)
    (user_input : string) :
  stable E a ->
  populated a k = false ->
  updated_info E a k user_input = Return a' ->
  keeps_answers a a'.
Proof.
  intros Hst Hk Hup.
  pose proof (updated_info_sets_one_field E a a' k user_input Hst Hup)
    as H.
  destruct a as [vn ve vp vx vo vl vt].
  destruct k; cbn in Hk, H;
    try (apply is_some_false in Hk);
    try (destruct H as (x & _ & _ & H)); try (destruct H as (x & _ & H));
    subst; unfold keeps_answers, with_text, with_experience; cbn;
    repeat split; intros; first [assumption | discriminate].
Qed.

Section KeptAnswers.

Variable E : environment.

Hypothesis email_idempotent :
  forall s n, email_validator E s = inr n -> email_validator E n = inr n.

Lemma script_run_keeps_answers (st : session_state) (i : option string) :
  session_inv st ->
  stable E (applicant_info st) ->
  keeps_answers (applicant_info st) (applicant_info (script_run E st i)).
Proof.
  intros Hinv Hst.
  destruct (script_run_outcome E st i Hinv)
    as [-> | [(_ & ->) | (text & _ & _ & _ & _ & -> & Hcur & Htech & _)]].
  - apply keeps_answers_refl.
  - destruct (first_prompt_frame st) as (-> & _). apply keeps_answers_refl.
  - destruct (first_prompt_frame st) as (Ha & _).
    destruct (process_input_outcome E (first_prompt st) text)
      as [[_ ->] | [(_ & _ & ->) | [(k & e & _ & _ & _ & ->)
          | [(k & a & _ & Hk & Hup & _ & ->)
          | (k & a & t & _ & Hk & Hup & _ & _ & ->)]]]];
      cbn [applicant_info]; rewrite ?Ha; try apply keeps_answers_refl;
      rewrite Ha in Hup; rewrite Hcur in Hk; injection Hk as <-;
      exact (update_keeps_answers E _ _ _ _ Hst
               (target_not_populated _ Htech) Hup).
Qed.

(** X16. With an e-mail check that accepts the address it returns and
    leaves it as it is, an answer once stored is kept for the rest of the
    session: whatever is submitted later, every field that holds a value
    holds the same value afterwards. No field is overwritten or cleared. *)
Theorem answers_are_kept (inputs more : list (option string)) :
  keeps_answers (applicant_info (run E inputs))
    (applicant_info (run E (inputs ++ more))).
Proof.
  induction more as [| i more IH] using rev_ind.
  - rewrite app_nil_r. apply keeps_answers_refl.
  - rewrite app_assoc, run_snoc.
    apply (keeps_answers_trans _ _ _ IH).
    apply script_run_keeps_answers.
    + apply run_session_inv.
    + now apply run_stable.
Qed.

End KeptAnswers.

Lemma check_email_idempotent (s n : string) :
  email_validator Sample.answering s = inr n ->
  email_validator Sample.answering n = inr n.
Proof.
  cbn. unfold Sample.check_email.
  destruct (Sample.split_at "@" s) as [[l d] |] eqn:Hs; [| discriminate].
  destruct (_ && _) eqn:Hc; [| discriminate].
  intros [= <-]. now rewrite Hs, Hc.
Qed.

Lemma answers_are_kept_witness :
  (forall s n, email_validator Sample.answering s = inr n ->
               email_validator Sample.answering n = inr n)
  /\ keeps_answers
       (applicant_info (run Sample.answering [Some "Jane Doe"]))
       (applicant_info
          (run Sample.answering
             ([Some "Jane Doe"] ++ [Some "jane@x.com"; Some "Ann"]))).
Proof.
  split; [exact check_email_idempotent |].
  exact (answers_are_kept Sample.answering check_email_idempotent
           [Some "Jane Doe"] [Some "jane@x.com"; Some "Ann"]).
Defined.

(* ================================================================== *)
(** * The generation call, once and with the collected values *)
(* ================================================================== *)

Lemma non_blank_truthy (t : string) :
  non_blank t = true -> PyStr.truthy t = true.
Proof. destruct t; [discriminate | reflexivity]. Qed.

(** In a stable profile a tech stack that is not blank is stored as it
    is. *)
Lemma tech_stack_stored (E : environment) (a : ApplicantInfo) (t : string) :
  stable E a ->
  non_blank t = true ->
  updated_info E a k_tech_stack t = Return (with_text a k_tech_stack t).
Proof.
  unfold stable, updated_info, bind, model_validate. intros Hst Ht.
  cbn [with_entry model_dump d_name d_email d_phone d_experience d_position
         d_location d_tech_stack] in *.
  destruct (_ ++ _)%list eqn:Herr in Hst; [| discriminate].
  apply app_eq_nil in Herr as [H1 Herr].
  apply app_eq_nil in Herr as [H2 Herr].
  apply app_eq_nil in Herr as [H3 Herr].
  apply app_eq_nil in Herr as [H4 Herr].
  apply app_eq_nil in Herr as [H5 Herr].
  apply app_eq_nil in Herr as [H6 _].
  rewrite H1, H2, H3, H4, H5, H6.
  assert (Hv : validate_not_empty (Some t) = Return (Some t)).
  { unfold validate_not_empty. unfold non_blank in Ht. now rewrite Ht. }
  rewrite Hv. cbn [errors_of app value_of].
  destruct a as [n e p ex po l ts]. cbn [name email phone experience position
    location tech_stack] in *.
  injection Hst as E1 E2 E3 E4 E5 E6 _.
  unfold with_text. cbn. congruence.
Qed.

(** An update after which the tech stack is present, in a profile without
    one: the pending field was the tech stack, the value stored is the
    input, and name, phone, experience, position and location are as
    before; in a stable profile so is the e-mail address. *)
Lemma tech_stack_update (E : environment) (a a' : ApplicantInfo) (k : key)
    (text : string) :
  updated_info E a k text = Return a' ->
  tech_stack a = None ->
  tech_stack a' <> None ->
  k = k_tech_stack
  /\ tech_stack a' = Some text
  /\ name a' = name a
  /\ phone a' = phone a
  /\ experience a' = experience a
  /\ position a' = position a
  /\ location a' = location a
  /\ (stable E a -> a' = with_text a k_tech_stack text).
Proof.
  intros Hup Htech Hset. unfold updated_info, bind in Hup.
  destruct (with_entry (model_dump a) k text) as [d |] eqn:Hw;
    [| discriminate].
  pose proof (stable_email E a) as Hmail.
  apply model_validate_returns in Hup.
  destruct Hup as (U1 & U2 & _ & U3 & U4 & _ & U5 & U6 & U7).
  destruct a as [vn ve vp vx vo vl vt], a' as [wn we wp wx wo wl wt].
  cbn [name email phone experience position location tech_stack] in *.
  subst vt.
  destruct k; cbn in Hw;
    try (injection Hw as <-; cbn in U7; congruence).
  - unfold py_float in Hw. destruct (PyFloat.of_string text);
      [| discriminate].
    cbn in Hw. injection Hw as <-. cbn in U7. congruence.
  - injection Hw as <-. cbn in *. repeat split; try assumption.
    intros Hst. unfold with_text. cbn. rewrite (Hmail Hst) in U2. congruence.
Qed.

(** With the first six fields populated the sequencer asks for the tech
    stack, and with the tech stack set it returns the sentinel. *)
Lemma six_populated_target (a : ApplicantInfo) (t : string) :
  first_populated 6 a ->
  snd (get_next_prompt a) = k_tech_stack
  /\ snd (get_next_prompt (with_text a k_tech_stack t)) = k_generate_questions.
Proof.
  unfold first_populated. destruct a as [vn ve vp vx vo vl vt]. cbn.
  intros [= H1 H2 H3 H4 H5 H6 H7].
  destruct vn, ve, vp, vx, vo, vl, vt; try discriminate. now split.
Qed.

(** A script run with an input, in an open conversation with the key
    configured, processes the input with the target of the sequencer as
    the pending field. *)
Lemma script_run_processes (E : environment) (st : session_state)
    (text : string) :
  session_inv st ->
  configured (GOOGLE_API_KEY E) = true ->
  conversation_finished st = false ->
  PyStr.truthy text = true ->
  script_run E st (Some text) = process_input E (first_prompt st) text
  /\ applicant_info (first_prompt st) = applicant_info st
  /\ current_field_to_fill (first_prompt st)
     = Some (snd (get_next_prompt (applicant_info st)))
  /\ generation_calls (first_prompt st) = [].
Proof.
  intros [_ Hcoll] Hkey Hopen Htext. unfold script_run.
  destruct (first_prompt_frame st) as (Ha & Hf & Hc & Hm & Hsame & Hfirst).
  rewrite Hkey, Hf, Hopen, Htext. cbn [negb].
  destruct (Hcoll Hopen) as (H1 & _ & H3).
  split; [reflexivity |]. split; [exact Ha |].
  split; [| now rewrite Hc].
  destruct (messages st) as [| m l] eqn:Hms.
  - now apply Hfirst.
  - rewrite Hsame by discriminate. apply H3. discriminate.
Qed.

(** The script run that sets the tech stack carries it as its input and
    keeps the other answers. *)
Lemma script_run_sets_tech_stack (E : environment) (st : session_state)
    (i : option string) (t : string) :
  session_inv st ->
  tech_stack (applicant_info st) = None ->
  tech_stack (applicant_info (script_run E st i)) = Some t ->
  i = Some t
  /\ name (applicant_info (script_run E st i)) = name (applicant_info st)
  /\ phone (applicant_info (script_run E st i)) = phone (applicant_info st)
  /\ experience (applicant_info (script_run E st i))
     = experience (applicant_info st)
  /\ position (applicant_info (script_run E st i))
     = position (applicant_info st)
  /\ location (applicant_info (script_run E st i))
     = location (applicant_info st)
  /\ (stable E (applicant_info st) ->
      applicant_info (script_run E st i)
      = with_text (applicant_info st) k_tech_stack t).
Proof.
  intros Hinv Hnone Hsome.
  destruct (script_run_outcome E st i Hinv)
    as [Heq | [(_ & Heq) | (text & _ & _ & -> & _ & Heq & _)]];
    rewrite Heq in *.
  - congruence.
  - destruct (first_prompt_frame st) as (Ha & _). rewrite Ha in Hsome.
    congruence.
  - destruct (first_prompt_frame st) as (Ha & _).
    destruct (process_input_outcome E (first_prompt st) text)
      as [[_ Hp] | [(_ & _ & Hp) | [(k & e & _ & _ & _ & Hp)
          | [(k & a & _ & _ & Hup & _ & Hp)
          | (k & a & x & _ & _ & Hup & _ & _ & Hp)]]]];
      rewrite Hp in *; cbn [applicant_info] in *;
      try (rewrite Ha in Hsome; congruence);
      rewrite Ha in Hup;
      (destruct (tech_stack_update E _ _ _ _ Hup Hnone)
         as (_ & Ht & F1 & F2 & F3 & F4 & F5 & F6); [congruence |]);
      (assert (text = t) by congruence); subst text;
      repeat split; assumption.
Qed.

(** C4. In every execution of the session the generation adapter is
    called at most once. It is called exactly in the script run that sets
    the tech stack, the seventh field (absent before the run, present
    after it): that run carries the tech stack as its input, the call is
    the only one and its argument is that input, the conversation is
    finished after the run, and the final export holds a value for each
    of the seven fields, with name, phone, experience, position and
    location as collected and, in a stable profile, the e-mail address as
    collected too. A run that does not set the tech stack makes no call.
    And the call does happen: with the key configured, the conversation
    open, the first six fields populated and the profile stable, an input
    that is no termination keyword and not blank is stored as the tech
    stack, the adapter is called with it, the conversation is finished,
    and the final export is the six collected values with that input. *)
Theorem generation_exactly_once (E : environment)
    (inputs : list (option string)) (i : option string) :
  let st := run E inputs in
  let st' := script_run E st i in
  (length (generation_calls st) <= 1)%nat
  /\ ((tech_stack (applicant_info st) = None
       /\ tech_stack (applicant_info st') <> None) ->
      exists t,
        i = Some t
        /\ tech_stack (applicant_info st') = Some t
        /\ generation_calls st = []
        /\ generation_calls st' = [t]
        /\ conversation_finished st' = true
        /\ complete (final_export st') = true
        /\ d_name (final_export st') = name (applicant_info st)
        /\ d_phone (final_export st') = phone (applicant_info st)
        /\ d_experience (final_export st') = experience (applicant_info st)
        /\ d_position (final_export st') = position (applicant_info st)
        /\ d_location (final_export st') = location (applicant_info st)
        /\ d_tech_stack (final_export st') = Some t
        /\ (stable E (applicant_info st) ->
            final_export st'
            = model_dump (with_text (applicant_info st) k_tech_stack t)))
  /\ (~ (tech_stack (applicant_info st) = None
         /\ tech_stack (applicant_info st') <> None) ->
      generation_calls st' = generation_calls st)
  /\ (forall t,
        i = Some t ->
        configured (GOOGLE_API_KEY E) = true ->
        conversation_finished st = false ->
        first_populated 6 (applicant_info st) ->
        stable E (applicant_info st) ->
        is_termination t = false ->
        non_blank t = true ->
        tech_stack (applicant_info st') = Some t
        /\ generation_calls st' = [t]
        /\ conversation_finished st' = true
        /\ final_export st'
           = model_dump (with_text (applicant_info st) k_tech_stack t)).
Proof.
  intros st st'. subst st st'.
  pose proof (run_session_inv E inputs) as Hinv.
  split; [apply Hinv |]. split; [| split].
  - intros [Hnone Hset].
    destruct (script_run_generation E (run E inputs) i Hinv)
      as [_ [[Hq1 Hq2] | (t & G1 & G2 & G3 & G4 & G5 & G6 & G7)]];
      [rewrite Hq2 in Hset; contradiction |].
    destruct (script_run_sets_tech_stack E (run E inputs) i t Hinv Hnone G4)
      as (Hi & F1 & F2 & F3 & F4 & F5 & F6).
    exists t. unfold final_export in *. cbn [model_dump d_name d_phone
      d_experience d_position d_location d_tech_stack].
    repeat split; try assumption.
    intros Hst. now rewrite (F6 Hst).
  - intros Hno.
    destruct (script_run_generation E (run E inputs) i Hinv)
      as [_ [[Hq1 Hq2] | (t & G1 & G2 & G3 & G4 & G5 & G6 & G7)]];
      [exact Hq1 |].
    exfalso. apply Hno. split; [exact G2 |]. congruence.
  - intros t -> Hkey Hopen Hsix Hst Hterm Hblank.
    destruct (script_run_processes E (run E inputs) t Hinv Hkey Hopen
                (non_blank_truthy t Hblank)) as (-> & Ha & Hcur & Hcalls).
    destruct (six_populated_target (applicant_info (run E inputs)) t Hsix)
      as [Htarget Hfull].
    rewrite Htarget in Hcur.
    pose proof (tech_stack_stored E _ t Hst Hblank) as Hup.
    rewrite <- Ha in Hup.
    destruct (process_input_outcome E (first_prompt (run E inputs)) t)
      as [[H _] | [(_ & H & _) | [(k & e & _ & Hk & Hup' & _)
          | [(k & a & _ & Hk & Hup' & Hn & _)
          | (k & a & x & _ & Hk & Hup' & Hn & _ & ->)]]]];
      try congruence;
      (assert (k = k_tech_stack) by congruence); subst k;
      rewrite Hup in Hup'; try discriminate;
      injection Hup' as <-; rewrite Ha in *; try contradiction.
    unfold final_export. cbn [applicant_info generation_calls
      conversation_finished].
    rewrite Hcalls. repeat split.
Qed.

Lemma generation_exactly_once_witness :
  let st := run Sample.answering Sample.six_answers in
  let st' :=
    run Sample.answering (Sample.six_answers ++ [Some "Python, PostgreSQL"]) in
  conversation_finished st = false
  /\ generation_calls st = []
  /\ first_populated 6 (applicant_info st)
  /\ stable Sample.answering (applicant_info st)
  /\ generation_calls st' = ["Python, PostgreSQL"]
  /\ conversation_finished st' = true
  /\ final_export st' = scenario_A_export.
Proof.
  cbv zeta.
  assert (Hst : stable Sample.answering
                  (applicant_info (run Sample.answering Sample.six_answers)))
    by reflexivity.
  destruct (generation_exactly_once Sample.answering Sample.six_answers
              (Some "Python, PostgreSQL")) as (_ & _ & _ & Hlive).
  destruct (Hlive "Python, PostgreSQL" eq_refl eq_refl eq_refl eq_refl Hst
              eq_refl eq_refl) as (_ & Hcalls & Hfin & Hexport).
  split; [reflexivity |]. split; [reflexivity |]. split; [reflexivity |].
  split; [exact Hst |]. split; [exact Hcalls |]. split; [exact Hfin |].
  exact Hexport.
Defined.
